(** * Verification of the EEG acquisition core of [gui.py]

    The development embeds the byte-stream resynchroniser
    ([BLEWorker.notification_handler]), the frame decoder and sequence
    statistics ([BLEWorker.process_packet]), the command handler
    ([MainWindow.send_cmd]) and the bounded sample queue
    ([deque(maxlen=2500)], drained by [MainWindow.update_plot]).

    Conventions of the embedding:
    - a Python [int] is a [Z]; bit operations are [Z.land], [Z.lor],
      [Z.shiftl] (two's complement on unbounded integers, as in Python);
    - a Python [float] is a primitive binary64 [float];
    - a [bytearray] is a [list byte];
    - a raised [IndexError] or [ZeroDivisionError] is [None] in the
      [option] monad;
    - [time.time()] is an oracle [time_time : nat -> float] giving the
      n-th reading, with the number of readings taken so far kept in the
      environment. *)

From Stdlib Require Import String ZArith List Floats Lia Bool.
From Stdlib.Strings Require Import Byte.
Import ListNotations.
Local Open Scope Z_scope.

(** ** Python numbers *)

(** [float(z)] for an integer: round to nearest, ties to even.  The
    conversion is exact below 2^53 in magnitude.  From 2^1024 on CPython
    raises [OverflowError] where this gives an infinity: the model
    follows the code only for integers below that, and the theorems
    that rest on a converted counter bound the counters. *)
Definition float_of_int (z : Z) : float :=
  SF2Prim (binary_normalize prec emax z 0 false).

(** [a / b] on two integers (true division); [None] stands for
    [ZeroDivisionError].  CPython rounds the exact quotient once.  For
    operands below 2^53 in magnitude both conversions are exact and the
    binary64 quotient of the two is that correctly rounded quotient;
    beyond 2^53 the two can differ in the last place, so the theorems
    about the value of a quotient bound its operands. *)
Definition int_truediv (a b : Z) : option float :=
  if b =? 0 then None else Some (float_of_int a / float_of_int b)%float.

(** [a / b] on two floats; a zero divisor of either sign raises. *)
Definition float_truediv (a b : float) : option float :=
  if (b =? 0)%float then None else Some (a / b)%float.

(** [SCALE_FACTOR = (4.5 / 8388607 / 24.0) * 1000000] *)
Definition SCALE_FACTOR : float :=
  (((4.5 / float_of_int 8388607) / 24.0) * float_of_int 1000000)%float.

(** ** Errors: the option monad *)

Definition bind {A B : Type} (m : option A) (k : A -> option B) : option B :=
  match m with
  | Some a => k a
  | None => None
  end.

Notation "x <- m ;; k" := (bind m (fun x => k))
  (at level 61, m at next level, right associativity).
Notation "' p <- m ;; k" := (bind m (fun x => match x with p => k end))
  (at level 61, p pattern, m at next level, right associativity).

Fixpoint mapM {A B : Type} (f : A -> option B) (l : list A) : option (list B) :=
  match l with
  | [] => Some []
  | a :: l' => b <- f a ;; bs <- mapM f l' ;; Some (b :: bs)
  end.

(** ** Bytes *)

(** The integer a [bytearray] yields at an index. *)
Definition byte_val (b : byte) : Z := Z.of_N (Byte.to_N b).

(** [data[i]] *)
Definition index (data : list byte) (i : nat) : option Z :=
  option_map byte_val (nth_error data i).

(** ** The bounded queue: [collections.deque(maxlen=...)] *)

Module Deque.
Section Ops.
Context {A : Type}.

(** [q.append(v)]: the item is added on the right, and the leftmost
    item is dropped when the length exceeds [maxlen]. *)
Definition append (maxlen : nat) (q : list A) (v : A) : list A :=
  let q' := q ++ [v] in
  if (maxlen <? length q')%nat then tl q' else q'.

(** [q.popleft()]: [None] stands for [IndexError] on an empty deque. *)
Definition popleft (q : list A) : option (A * list A) :=
  match q with
  | [] => None
  | x :: q' => Some (x, q')
  end.
End Ops.
End Deque.

Definition MAXLEN : nat := 2500.

(** ** Program state *)

Definition SampleVector := list float.
Definition Stats := (float * float)%type.

(** The attributes of a [BLEWorker] that the decoding path reads or
    writes.  [data_queue] is a reference to the window's deque and lives
    in [Env]. *)
Record BLEWorker := mkBLEWorker {
  rx_buffer : list byte;
  last_seq : Z;
  expected : Z;
  received : Z;
  start_t : float
}.

(** What the worker reaches outside itself: the deque it shares with
    [MainWindow] and the clock. *)
Record Env := mkEnv {
  data_queue : list SampleVector;
  time_calls : nat
}.

(** [BLEWorker.__init__] *)
Definition BLEWorker_init : BLEWorker :=
  mkBLEWorker [] (-1) 0 0 0%float.

Definition set_rx_buffer (b : list byte) (w : BLEWorker) : BLEWorker :=
  mkBLEWorker b (last_seq w) (expected w) (received w) (start_t w).

Section Clock.
Variable time_time : nat -> float.

(** *** [process_packet], lines 91-98: sequence tracking *)
Definition track_seq (seq : Z) (w : BLEWorker) : BLEWorker :=
  let w1 :=
    if negb (last_seq w =? -1) then
      let diff := Z.land (seq - last_seq w) 0xFF in
      mkBLEWorker (rx_buffer w) (last_seq w)
                  (expected w + diff) (received w + 1) (start_t w)
    else
      mkBLEWorker (rx_buffer w) seq (expected w) (received w) (start_t w) in
  mkBLEWorker (rx_buffer w1) seq (expected w1) (received w1) (start_t w1).

(** *** [process_packet], lines 100-105: the periodic statistics *)
Definition loss_pct (w : BLEWorker) : option float :=
  if 0 <? expected w then
    q <- int_truediv (expected w - received w) (expected w) ;;
    Some (q * float_of_int 100)%float
  else Some 0%float.

Definition stats_tick (w : BLEWorker) (t : nat)
  : option (BLEWorker * nat * option Stats) :=
  if received w mod 50 =? 0 then
    loss <- loss_pct w ;;
    let '(w1, t1) :=
      if (start_t w =? 0)%float then
        (mkBLEWorker (rx_buffer w) (last_seq w) (expected w) (received w)
                     (time_time t), S t)
      else (w, t) in
    let elapsed := (time_time t1 - start_t w1)%float in
    fps <- (if (0 <? elapsed)%float
            then float_truediv (float_of_int (received w1 * 2)) elapsed
            else Some 0%float) ;;
    Some (w1, S t1, Some (loss, fps))
  else Some (w, t, None).

(** *** [process_packet], lines 107-115: decoding *)
Definition decode_channel (data : list byte) (idx : nat) : option float :=
  b0 <- index data idx ;;
  b1 <- index data (idx + 1) ;;
  b2 <- index data (idx + 2) ;;
  let val := Z.lor (Z.lor (Z.shiftl b0 16) (Z.shiftl b1 8)) b2 in
  let val := if negb (Z.land val 0x800000 =? 0) then val - 0x1000000 else val in
  Some (float_of_int val * SCALE_FACTOR)%float.

Definition decode_frame (data : list byte) (offset : nat)
  : option SampleVector :=
  mapM (fun i => decode_channel data (offset + i * 3)) (seq 0 8).

Definition decode_frames (data : list byte) : option (list SampleVector) :=
  mapM (decode_frame data) [2%nat; 26%nat].

(** *** [BLEWorker.process_packet] *)
Definition process_packet (data : list byte) (w : BLEWorker) (env : Env)
  : option (BLEWorker * Env * option Stats) :=
  seq <- index data 1 ;;
  let w := track_seq seq w in
  ' (w, t, emitted) <- stats_tick w (time_calls env) ;;
  frames <- decode_frames data ;;
  f0 <- nth_error frames 0 ;;
  f1 <- nth_error frames 1 ;;
  let q := Deque.append MAXLEN (data_queue env) f0 in
  let q := Deque.append MAXLEN q f1 in
  Some (w, mkEnv q t, emitted).

(** *** [BLEWorker.notification_handler]

    What one run of the handler did, in order: the bytes it popped
    from the front and the packets it handed to [process_packet]
    (with what [stats_cb] received, if it was called). *)
Inductive Event :=
| Discarded (b : byte)
| Processed (packet : list byte) (emitted : option Stats).

(** The [while] loop; every iteration shortens [rx_buffer], so
    [length rx_buffer] iterations always suffice (see
    [handler_loop_fuel]). *)
Fixpoint handler_loop (fuel : nat) (w : BLEWorker) (env : Env)
  : option (BLEWorker * Env * list Event) :=
  match fuel with
  | O => Some (w, env, [])
  | S fuel' =>
    if (52 <=? length (rx_buffer w))%nat then
      b0 <- nth_error (rx_buffer w) 0 ;;
      if negb (byte_val b0 =? 0xA0) then
        ' (w', env', evs) <-
          handler_loop fuel' (set_rx_buffer (skipn 1 (rx_buffer w)) w) env ;;
        Some (w', env', Discarded b0 :: evs)
      else
        let packet := firstn 52 (rx_buffer w) in
        let w := set_rx_buffer (skipn 52 (rx_buffer w)) w in
        ' (w, env, emitted) <- process_packet packet w env ;;
        ' (w', env', evs) <- handler_loop fuel' w env ;;
        Some (w', env', Processed packet emitted :: evs)
    else Some (w, env, [])
  end.

Definition notification_handler (data : list byte) (w : BLEWorker) (env : Env)
  : option (BLEWorker * Env * list Event) :=
  let w := set_rx_buffer (rx_buffer w ++ data) w in
  handler_loop (length (rx_buffer w)) w env.

(** The packets a trace handed to [process_packet], in order. *)
Fixpoint frames_of (evs : list Event) : list (list byte) :=
  match evs with
  | [] => []
  | Discarded _ :: evs' => frames_of evs'
  | Processed p _ :: evs' => p :: frames_of evs'
  end.

(** Successive notifications. *)
Fixpoint feed (chunks : list (list byte)) (w : BLEWorker) (env : Env)
  : option (BLEWorker * Env * list Event) :=
  match chunks with
  | [] => Some (w, env, [])
  | c :: chunks' =>
    ' (w, env, evs) <- notification_handler c w env ;;
    ' (w', env', evs') <- feed chunks' w env ;;
    Some (w', env', evs ++ evs')
  end.

(** Successive packets given to [process_packet] directly. *)
Fixpoint observe_all (packets : list (list byte)) (w : BLEWorker) (env : Env)
  : option (BLEWorker * Env * list (option Stats)) :=
  match packets with
  | [] => Some (w, env, [])
  | p :: packets' =>
    ' (w, env, e) <- process_packet p w env ;;
    ' (w', env', es) <- observe_all packets' w env ;;
    Some (w', env', e :: es)
  end.

(** *** [MainWindow.send_cmd]

    The transport write ([send_command], scheduled with
    [ensure_future]) and [update_status] touch neither the worker's
    decoding attributes nor the deque. *)
Definition send_cmd (char : string) (ble_worker : option BLEWorker) (env : Env)
  : option BLEWorker * Env :=
  match ble_worker with
  | Some w =>
    if (char =? "b")%string then
      (Some (mkBLEWorker (rx_buffer w) (last_seq w) (expected w) 0
                         (time_time (time_calls env))),
       mkEnv (data_queue env) (S (time_calls env)))
    else (Some w, env)
  | None => (None, env)
  end.

(** *** [MainWindow.update_plot], lines 246-249: draining the deque *)
Fixpoint drain_loop (q : list SampleVector) (data : list SampleVector)
  : list SampleVector * list SampleVector :=
  match q with
  | [] => (data, q)
  | x :: q' => drain_loop q' (data ++ [x])
  end.

Definition update_plot_drain (env : Env) : list SampleVector * Env :=
  let '(data, q) := drain_loop (data_queue env) [] in
  (data, mkEnv q (time_calls env)).

End Clock.

(** ** Frames built from known codes *)

(** The byte holding the low eight bits of [z]. *)
Definition byte_of_int (z : Z) : byte :=
  match Byte.of_N (Z.to_N (z mod 256)) with
  | Some b => b
  | None => x00
  end.

(** A 24-bit code as three bytes, most significant first. *)
Definition encode24 (c : Z) : list byte :=
  [byte_of_int (Z.shiftr c 16); byte_of_int (Z.shiftr c 8); byte_of_int c].

(** A 52-byte frame: marker, sequence number, the channel fields of the
    two sub-frames, two reserved bytes. *)
Definition build_frame (seq : byte) (codes : list Z) (r0 r1 : byte) : list byte :=
  xa0 :: seq :: flat_map encode24 codes ++ [r0; r1].

(** The value a 24-bit code stands for: two's complement, scaled. *)
Definition decoded (c : Z) : float :=
  (float_of_int (if Z.testbit c 23 then c - 2 ^ 24 else c) * SCALE_FACTOR)%float.

(** ** The buffer side of the handler alone

    Whether an iteration pops a byte or cuts a packet depends on
    [rx_buffer] only; [scan] is [handler_loop] with everything but the
    buffer left out. *)
Inductive Slide :=
| Pop (b : byte)
| Cut (packet : list byte).

Definition slide_of (e : Event) : Slide :=
  match e with
  | Discarded b => Pop b
  | Processed p _ => Cut p
  end.

Fixpoint cuts_of (sl : list Slide) : list (list byte) :=
  match sl with
  | [] => []
  | Pop _ :: sl' => cuts_of sl'
  | Cut p :: sl' => p :: cuts_of sl'
  end.

Fixpoint scan (fuel : nat) (buf : list byte) : list Slide * list byte :=
  match fuel with
  | O => ([], buf)
  | S fuel' =>
    if (52 <=? length buf)%nat then
      match buf with
      | [] => ([], buf)
      | b0 :: rest =>
        if negb (byte_val b0 =? 0xA0) then
          let (sl, r) := scan fuel' rest in (Pop b0 :: sl, r)
        else
          let (sl, r) := scan fuel' (skipn 52 buf) in
          (Cut (firstn 52 buf) :: sl, r)
      end
    else ([], buf)
  end.

Definition sync (buf : list byte) : list Slide * list byte :=
  scan (length buf) buf.

(** Two workers whose trackers agree: the tracker reads and writes
    these three attributes only. *)
Definition same_counters (a b : BLEWorker) : Prop :=
  last_seq a = last_seq b /\ expected a = expected b /\
  received a = received b.

(** ** Sample inputs *)

(** A clock that starts at 1000 s and advances 1 s per reading. *)
Definition clock0 (n : nat) : float := float_of_int (1000 + Z.of_nat n).

Definition env0 : Env := mkEnv [] 0.

(** A frame with sequence number [s] and an all-zero payload. *)
Definition packet_with_seq (s : byte) : list byte :=
  xa0 :: s :: repeat x00 50.

(** Sixteen codes, the extreme ones first. *)
Definition codes16 : list Z :=
  [0x800000; 0x7FFFFF; 0; 1; 2; 3; 4; 5;
   0xFFFFFF; 6; 7; 8; 9; 10; 11; 12].

(** One garbage byte and two frames, cut at three places that are not
    frame boundaries. *)
Definition chunks3 : list (list byte) :=
  [x00 :: firstn 10 (packet_with_seq x05);
   skipn 10 (packet_with_seq x05) ++ firstn 3 (packet_with_seq x06);
   skipn 3 (packet_with_seq x06)].

(** 2505 one-element vectors, all different. *)
Definition vectors2505 : list SampleVector :=
  map (fun n => [float_of_int (Z.of_nat n)]) (seq 0 2505).

(** ** Reading a trace *)

(** The bytes an iteration took off the front of the accumulator. *)
Definition bytes_of (e : Event) : list byte :=
  match e with
  | Discarded b => [b]
  | Processed p _ => p
  end.

Definition slide_bytes (sl : Slide) : list byte :=
  match sl with
  | Pop b => [b]
  | Cut p => p
  end.

(** What [stats_cb] received during a trace, one entry per packet. *)
Fixpoint emitted_of (evs : list Event) : list (option Stats) :=
  match evs with
  | [] => []
  | Discarded _ :: evs' => emitted_of evs'
  | Processed _ e :: evs' => e :: emitted_of evs'
  end.

(** The vectors a packet decodes to (none when decoding raises). *)
Definition vectors_of (p : list byte) : list SampleVector :=
  match decode_frames p with
  | Some frames => frames
  | None => []
  end.

(** The sequence numbers of a stream that starts at [s0] and whose
    every packet is [g] numbers ahead of the one received before it,
    for the successive [g] of [gaps] (1 when nothing was lost in
    between), modulo 256. *)
Fixpoint seqs_after (s : Z) (gaps : list Z) : list Z :=
  match gaps with
  | [] => []
  | g :: gaps' => (s + g) mod 256 :: seqs_after ((s + g) mod 256) gaps'
  end.

Definition seqs_from (s0 : Z) (gaps : list Z) : list Z :=
  s0 :: seqs_after s0 gaps.

(** ** [MainWindow.update_plot], lines 250-256: the plot buffer

    The numpy operations the method uses, on a 2-D float array given
    as the list of its rows. *)
Module Np.

(** [np.array(data)] for a list of lists of floats: rows of different
    lengths raise. *)
Definition array (data : list (list float)) : option (list (list float)) :=
  match data with
  | [] => Some []
  | r :: _ =>
    if forallb (fun x => (length x =? length r)%nat) data
    then Some data else None
  end.

Definition ncols (a : list (list float)) : nat :=
  match a with
  | [] => 0%nat
  | r :: _ => length r
  end.

(** [a.T] *)
Definition transpose (a : list (list float)) : list (list float) :=
  map (fun j => map (fun r => nth j r 0%float) a) (seq 0 (ncols a)).

(** [np.roll(a, -n, axis=1)] *)
Definition roll_left (n : nat) (a : list (list float)) : list (list float) :=
  map (fun r => let s := (n mod length r)%nat in skipn s r ++ firstn s r) a.

(** [a[:, -n:] = v] for [n >= 1]: the slice is the last [min n width]
    columns, and [v] must have as many rows as [a] or one, and as many
    columns as the slice or one (broadcasting); any other shape
    raises. *)
Definition assign_last_cols (n : nat) (a v : list (list float))
  : option (list (list float)) :=
  let w := ncols a in
  let m := Nat.min n w in
  vrows <- (if (length v =? length a)%nat then Some v
            else if (length v =? 1)%nat
                 then Some (repeat (hd [] v) (length a))
                 else None) ;;
  if (ncols v =? m)%nat then
    Some (map (fun rx => firstn (w - m) (fst rx) ++ snd rx) (combine a vrows))
  else if (ncols v =? 1)%nat then
    Some (map (fun rx => firstn (w - m) (fst rx)
                         ++ repeat (hd 0%float (snd rx)) m)
              (combine a vrows))
  else None.

End Np.

(** [np.zeros((8, 1250))] *)
Definition plot_buffer_init : list (list float) :=
  repeat (repeat 0%float 1250) 8.

(** [MainWindow.update_plot]: the window's [plot_buffer] goes in and
    comes out; the third component is what the eight curves are given
    to draw ([setData]), empty when the method returns early and
    redraws nothing. *)
Definition update_plot (env : Env) (plot_buffer : list (list float))
  : option (Env * list (list float) * list (list float)) :=
  let '(data, env) := update_plot_drain env in
  match data with
  | [] => Some (env, plot_buffer, [])
  | _ :: _ =>
    arr <- Np.array data ;;
    let n := length arr in
    let plot_buffer := Np.roll_left n plot_buffer in
    plot_buffer <- Np.assign_last_cols n plot_buffer (Np.transpose arr) ;;
    curves <- mapM (fun i => nth_error plot_buffer i) (seq 0 8) ;;
    Some (env, plot_buffer, curves)
  end.

(** 626 whole frames: one more than the plot buffer has room for. *)
Definition frames626 : list (list byte) := repeat (packet_with_seq x05) 626.

(** Two whole frames cut after the tenth byte. *)
Definition two_frames_chunks : list (list byte) :=
  [firstn 10 (packet_with_seq x05);
   skipn 10 (packet_with_seq x05) ++ packet_with_seq x06].

(** A frame that differs from [packet_with_seq x05] in its marker and
    its two reserved bytes only. *)
Definition packet_other_ends : list byte :=
  x00 :: x05 :: repeat x00 48 ++ [xff; xff].

(** ** Bytes and 24-bit fields *)

Lemma byte_val_range (b : byte) : 0 <= byte_val b < 256.
Proof.
  unfold byte_val. pose proof (Byte.to_N_bounded b). lia.
Qed.

Lemma byte_val_of_int (z : Z) : byte_val (byte_of_int z) = z mod 256.
Proof.
  unfold byte_val, byte_of_int.
  assert (Hr : 0 <= z mod 256 < 256) by (apply Z.mod_pos_bound; lia).
  destruct (Byte.of_N (Z.to_N (z mod 256))) as [b|] eqn:E.
  - apply Byte.to_of_N in E. rewrite E. apply Z2N.id. lia.
  - apply Byte.of_N_None_iff in E. lia.
Qed.

Lemma be24_bytes (c : Z) :
  0 <= c < 2 ^ 24 ->
  Z.lor (Z.lor (Z.shiftl (Z.shiftr c 16 mod 256) 16)
               (Z.shiftl (Z.shiftr c 8 mod 256) 8))
        (c mod 256) = c.
Proof.
  intros Hc. apply Z.bits_inj'. intros n Hn.
  change 256 with (2 ^ 8).
  rewrite !Z.lor_spec, !Z.shiftl_spec by lia.
  rewrite (Z.testbit_mod_pow2 c 8 n) by lia.
  destruct (Z.ltb_spec n 8) as [H8|H8].
  - rewrite !(Z.testbit_neg_r _ (n - _)) by lia. reflexivity.
  - rewrite (Z.testbit_mod_pow2 _ 8 (n - 8)) by lia.
    rewrite Z.shiftr_spec by lia.
    replace (n - 8 + 8) with n by lia.
    destruct (Z.ltb_spec (n - 8) 8) as [H16|H16].
    + rewrite (Z.testbit_neg_r _ (n - 16)) by lia.
      now rewrite andb_true_l, andb_false_l, orb_false_l, orb_false_r.
    + rewrite (Z.testbit_mod_pow2 _ 8 (n - 16)) by lia.
      rewrite Z.shiftr_spec by lia.
      replace (n - 16 + 16) with n by lia.
      rewrite !andb_false_l, !orb_false_r.
      destruct (Z.ltb_spec (n - 16) 8) as [H24|H24]; [reflexivity|].
      rewrite andb_false_l. symmetry.
      rewrite <- (Z.mod_small c (2 ^ 24)) by lia.
      rewrite Z.testbit_mod_pow2 by lia.
      destruct (Z.ltb_spec n 24); [lia | reflexivity].
Qed.

Lemma sign_bit_test (c : Z) :
  negb (Z.land c 0x800000 =? 0) = Z.testbit c 23.
Proof.
  change 0x800000 with (2 ^ 23).
  destruct (Z.testbit c 23) eqn:Hb.
  - destruct (Z.eqb_spec (Z.land c (2 ^ 23)) 0) as [H0|H0]; [|reflexivity].
    assert (Ht : Z.testbit (Z.land c (2 ^ 23)) 23 = true).
    { rewrite Z.land_spec, Hb, Z.pow2_bits_eqb, Z.eqb_refl by lia. reflexivity. }
    rewrite H0, Z.bits_0 in Ht. discriminate.
  - replace (Z.land c (2 ^ 23)) with 0; [reflexivity|].
    apply Z.bits_inj'. intros n Hn.
    rewrite Z.bits_0, Z.land_spec, Z.pow2_bits_eqb by lia.
    destruct (Z.eqb_spec 23 n) as [E|E]; [subst n; now rewrite Hb | now rewrite andb_false_r].
Qed.

Section Decoding.

Lemma decode_channel_at (data : list byte) (idx : nat) (c : Z) :
  0 <= c < 2 ^ 24 ->
  nth_error data idx = Some (byte_of_int (Z.shiftr c 16)) ->
  nth_error data (idx + 1) = Some (byte_of_int (Z.shiftr c 8)) ->
  nth_error data (idx + 2) = Some (byte_of_int c) ->
  decode_channel data idx = Some (decoded c).
Proof.
  intros Hc H0 H1 H2. unfold decode_channel, index.
  rewrite H0, H1, H2. cbn [option_map bind].
  rewrite !byte_val_of_int, be24_bytes by exact Hc.
  rewrite sign_bit_test. reflexivity.
Qed.

Lemma decode_channel_total (data : list byte) (idx : nat) :
  (idx + 2 < length data)%nat ->
  exists v, decode_channel data idx = Some v.
Proof.
  intros Hlen. unfold decode_channel, index.
  destruct (nth_error data idx) as [b0|] eqn:E0;
    [|apply nth_error_None in E0; lia].
  destruct (nth_error data (idx + 1)) as [b1|] eqn:E1;
    [|apply nth_error_None in E1; lia].
  destruct (nth_error data (idx + 2)) as [b2|] eqn:E2;
    [|apply nth_error_None in E2; lia].
  cbn [option_map bind]. eexists. reflexivity.
Qed.

Lemma mapM_total {A B : Type} (f : A -> option B) (l : list A) :
  (forall a, In a l -> exists b, f a = Some b) ->
  exists bs, mapM f l = Some bs /\ length bs = length l.
Proof.
  induction l as [|a l IH]; intros Hf.
  - exists []. split; reflexivity.
  - destruct (Hf a (or_introl eq_refl)) as [b Hb].
    destruct IH as [bs [Hbs Hlen]].
    { intros a' Ha'. apply Hf. right. exact Ha'. }
    exists (b :: bs). cbn [mapM]. rewrite Hb, Hbs. cbn [bind length].
    split; [reflexivity | now rewrite Hlen].
Qed.

(** Decoding never fails on a 52-byte packet and yields two vectors. *)
Lemma decode_frames_total (data : list byte) :
  length data = 52%nat ->
  exists fA fB, decode_frames data = Some [fA; fB].
Proof.
  intros Hlen. unfold decode_frames.
  assert (Hf : forall o, In o [2%nat; 26%nat] ->
                         exists f, decode_frame data o = Some f).
  { intros o Ho. unfold decode_frame.
    destruct (mapM_total (fun i => decode_channel data (o + i * 3)) (seq 0 8))
      as [bs [Hbs _]]; [|exists bs; exact Hbs].
    intros i Hi. apply in_seq in Hi. apply decode_channel_total.
    cbn [In] in Ho. lia. }
  destruct (Hf 2%nat) as [fA HA]; [now left|].
  destruct (Hf 26%nat) as [fB HB]; [right; now left|].
  exists fA, fB. cbn [mapM]. rewrite HA, HB. reflexivity.
Qed.

End Decoding.

(** ** [process_packet] on a well-formed packet *)

Section Packets.
Variable time_time : nat -> float.

Lemma index_total (data : list byte) (i : nat) :
  (i < length data)%nat ->
  exists z, index data i = Some z /\ 0 <= z < 256.
Proof.
  intros Hi. unfold index.
  destruct (nth_error data i) as [b|] eqn:E;
    [|apply nth_error_None in E; lia].
  exists (byte_val b). split; [reflexivity | apply byte_val_range].
Qed.

Lemma track_seq_rx_buffer (s : Z) (w : BLEWorker) :
  rx_buffer (track_seq s w) = rx_buffer w.
Proof. unfold track_seq. destruct (negb (last_seq w =? -1)); reflexivity. Qed.

(** The first observation only records the sequence number. *)
Lemma track_seq_first (s : Z) (w : BLEWorker) :
  last_seq w = -1 ->
  track_seq s w =
  mkBLEWorker (rx_buffer w) s (expected w) (received w) (start_t w).
Proof. intros H. unfold track_seq. rewrite H. reflexivity. Qed.

(** Every later one counts the distance modulo 256. *)
Lemma track_seq_next (s : Z) (w : BLEWorker) :
  last_seq w <> -1 ->
  track_seq s w =
  mkBLEWorker (rx_buffer w) s (expected w + (s - last_seq w) mod 256)
              (received w + 1) (start_t w).
Proof.
  intros H. unfold track_seq.
  destruct (Z.eqb_spec (last_seq w) (-1)) as [E|_]; [contradiction|].
  cbn [negb rx_buffer expected received start_t].
  change 0xFF with (Z.ones 8). rewrite Z.land_ones by lia. reflexivity.
Qed.

(** A positive float is not zero: the guard [elapsed > 0] keeps the
    division from raising. *)
Lemma float_pos_nonzero (e : float) :
  (0 <? e)%float = true -> (e =? 0)%float = false.
Proof.
  rewrite FloatAxioms.ltb_spec, FloatAxioms.eqb_spec.
  change (Prim2SF 0) with (S754_zero false).
  destruct (Prim2SF e) as [sg|sg| |sg m x]; try destruct sg; cbn; congruence.
Qed.

(** The loss percentage as the block computes it, in binary64. *)
Lemma loss_pct_eq (w : BLEWorker) :
  loss_pct w =
  Some (if 0 <? expected w
        then (float_of_int (expected w - received w)
              / float_of_int (expected w) * float_of_int 100)%float
        else 0%float).
Proof.
  unfold loss_pct, int_truediv.
  destruct (Z.ltb_spec 0 (expected w)) as [Hpos|Hle]; [|reflexivity].
  destruct (Z.eqb_spec (expected w) 0) as [E|_]; [lia|]. reflexivity.
Qed.

(** The statistics block never raises, leaves the tracker as it is and
    calls [stats_cb] exactly when [received] is a multiple of 50. *)
Lemma stats_tick_spec (w : BLEWorker) (t : nat) :
  exists w1 t1 e,
    stats_tick time_time w t = Some (w1, t1, e) /\
    rx_buffer w1 = rx_buffer w /\ last_seq w1 = last_seq w /\
    expected w1 = expected w /\ received w1 = received w /\
    (e <> None <-> received w mod 50 = 0) /\
    (forall loss fps, e = Some (loss, fps) -> loss_pct w = Some loss).
Proof.
  unfold stats_tick.
  destruct (Z.eqb_spec (received w mod 50) 0) as [E|E].
  2:{ exists w, t, None. repeat split; intros; congruence. }
  rewrite loss_pct_eq. cbn [bind].
  set (loss := if 0 <? expected w then _ else _).
  destruct (start_t w =? 0)%float.
  - cbn [start_t received].
    destruct (0 <? time_time (S t) - time_time t)%float eqn:Hel.
    + unfold float_truediv. rewrite (float_pos_nonzero _ Hel). cbn [bind].
      do 3 eexists. repeat split; intros; try congruence.
    + cbn [bind]. do 3 eexists. repeat split; intros; try congruence.
  - destruct (0 <? time_time t - start_t w)%float eqn:Hel.
    + unfold float_truediv. rewrite (float_pos_nonzero _ Hel). cbn [bind].
      do 3 eexists. repeat split; intros; try congruence.
    + cbn [bind]. do 3 eexists. repeat split; intros; try congruence.
Qed.

(** The three blocks of [process_packet] run one after the other. *)
Lemma process_packet_eq (data : list byte) (w : BLEWorker) (env : Env)
      (s : Z) (fA fB : SampleVector) (w1 : BLEWorker) (t1 : nat)
      (e : option Stats) :
  index data 1 = Some s ->
  decode_frames data = Some [fA; fB] ->
  stats_tick time_time (track_seq s w) (time_calls env) = Some (w1, t1, e) ->
  process_packet time_time data w env =
  Some (w1,
        mkEnv (Deque.append MAXLEN (Deque.append MAXLEN (data_queue env) fA) fB)
              t1,
        e).
Proof.
  intros Hs Hd Ht. unfold process_packet. rewrite Hs. cbn [bind].
  rewrite Ht. cbn [bind]. rewrite Hd. reflexivity.
Qed.

(** On 52 bytes [process_packet] always returns. *)
Lemma process_packet_total (data : list byte) (w : BLEWorker) (env : Env) :
  length data = 52%nat ->
  exists s fA fB w1 t1 e,
    index data 1 = Some s /\ 0 <= s < 256 /\
    decode_frames data = Some [fA; fB] /\
    stats_tick time_time (track_seq s w) (time_calls env) = Some (w1, t1, e) /\
    process_packet time_time data w env =
    Some (w1,
          mkEnv (Deque.append MAXLEN
                   (Deque.append MAXLEN (data_queue env) fA) fB) t1,
          e).
Proof.
  intros Hlen.
  destruct (index_total data 1) as [s [Hs Hr]]; [lia|].
  destruct (decode_frames_total data Hlen) as [fA [fB Hd]].
  destruct (stats_tick_spec (track_seq s w) (time_calls env))
    as (w1 & t1 & e & Ht & _).
  exists s, fA, fB, w1, t1, e. repeat split; try assumption; try lia.
  now apply process_packet_eq with (s := s).
Qed.

(** What [process_packet] returns, whenever it returns. *)
Lemma process_packet_inv (data : list byte) (w w' : BLEWorker)
      (env env' : Env) (e : option Stats) :
  process_packet time_time data w env = Some (w', env', e) ->
  exists s t',
    index data 1 = Some s /\
    stats_tick time_time (track_seq s w) (time_calls env) = Some (w', t', e).
Proof.
  unfold process_packet. intros H.
  destruct (index data 1) as [s|]; [|discriminate]. cbn [bind] in H.
  destruct (stats_tick time_time (track_seq s w) (time_calls env))
    as [[[w1 t1] e1]|] eqn:Ht; [|discriminate].
  cbn [bind] in H.
  destruct (decode_frames data) as [frames|]; [|discriminate].
  cbn [bind] in H.
  destruct (nth_error frames 0); [|discriminate]. cbn [bind] in H.
  destruct (nth_error frames 1); [|discriminate]. cbn [bind] in H.
  injection H as <- _ <-. exists s, t1. split; [reflexivity | exact Ht].
Qed.

End Packets.

(** ** C1: decoding the channel fields *)

Lemma build_frame_length (sq r0 r1 : byte) (codes : list Z) :
  length codes = 16%nat -> length (build_frame sq codes r0 r1) = 52%nat.
Proof.
  intros Hlen. do 17 (destruct codes as [|? codes]; try discriminate).
  reflexivity.
Qed.

Lemma decode_build_frame (sq r0 r1 : byte) (codes : list Z) :
  length codes = 16%nat ->
  Forall (fun c => 0 <= c < 2 ^ 24) codes ->
  decode_frames (build_frame sq codes r0 r1) =
  Some [map decoded (firstn 8 codes); map decoded (skipn 8 codes)].
Proof.
  intros Hlen HF.
  do 17 (destruct codes as [|? codes]; try discriminate).
  pose proof (proj1 (Forall_forall _ _) HF) as Hall. clear HF Hlen.
  unfold decode_frames, decode_frame.
  cbn [build_frame flat_map encode24 app mapM seq Nat.add Nat.mul
       firstn skipn map].
  rewrite (decode_channel_at _ 2 z), (decode_channel_at _ 5 z0),
    (decode_channel_at _ 8 z1), (decode_channel_at _ 11 z2),
    (decode_channel_at _ 14 z3), (decode_channel_at _ 17 z4),
    (decode_channel_at _ 20 z5), (decode_channel_at _ 23 z6),
    (decode_channel_at _ 26 z7), (decode_channel_at _ 29 z8),
    (decode_channel_at _ 32 z9), (decode_channel_at _ 35 z10),
    (decode_channel_at _ 38 z11), (decode_channel_at _ 41 z12),
    (decode_channel_at _ 44 z13), (decode_channel_at _ 47 z14)
    by first [reflexivity | apply Hall; cbn [In]; tauto].
  reflexivity.
Qed.

(** C1.  A frame built from sixteen 24-bit codes (eight per sub-frame,
    each as three bytes, most significant first, at offsets 2..25 and
    26..49) decodes to the two vectors of the codes' values: the code,
    less 2^24 when bit 23 (0x800000) is set, times [SCALE_FACTOR]; these
    two vectors are what [process_packet] appends to the queue.  Code
    0x800000 stands for [-8388608 * SCALE_FACTOR] and code 0x7FFFFF for
    [8388607 * SCALE_FACTOR]. *)
Theorem decode_known_codes (time_time : nat -> float)
        (sq r0 r1 : byte) (codes : list Z) (w : BLEWorker) (env : Env) :
  length codes = 16%nat ->
  Forall (fun c => 0 <= c < 2 ^ 24) codes ->
  let frame := build_frame sq codes r0 r1 in
  let setA := map decoded (firstn 8 codes) in
  let setB := map decoded (skipn 8 codes) in
  length frame = 52%nat /\
  decode_frames frame = Some [setA; setB] /\
  (exists w' t' emitted,
      process_packet time_time frame w env =
      Some (w',
            mkEnv (Deque.append MAXLEN
                     (Deque.append MAXLEN (data_queue env) setA) setB) t',
            emitted)) /\
  decoded 0x800000 = (float_of_int (-8388608) * SCALE_FACTOR)%float /\
  decoded 0x7FFFFF = (float_of_int 8388607 * SCALE_FACTOR)%float.
Proof.
  intros Hlen HF frame setA setB.
  pose proof (build_frame_length sq r0 r1 codes Hlen) as H52.
  pose proof (decode_build_frame sq r0 r1 codes Hlen HF) as Hd.
  split; [exact H52|]. split; [exact Hd|]. split; [|split; reflexivity].
  destruct (index_total frame 1) as [s [Hs _]]; [fold frame in H52; lia|].
  destruct (stats_tick_spec time_time (track_seq s w) (time_calls env))
    as (w1 & t1 & e & Ht & _).
  exists w1, t1, e.
  apply (process_packet_eq time_time frame w env s setA setB w1 t1 e Hs Hd Ht).
Qed.

(** ** The resynchronisation loop *)

Lemma scan_short (fuel : nat) (buf : list byte) :
  (length buf < 52)%nat -> scan fuel buf = ([], buf).
Proof.
  intros Hlt. destruct fuel as [|fuel]; [reflexivity|].
  cbn [scan]. destruct (Nat.leb_spec 52 (length buf)); [lia | reflexivity].
Qed.

Lemma scan_fuel (f1 f2 : nat) (buf : list byte) :
  (length buf <= f1)%nat -> (length buf <= f2)%nat ->
  scan f1 buf = scan f2 buf.
Proof.
  revert f2 buf. induction f1 as [|f1 IH]; intros f2 buf H1 H2.
  - rewrite !scan_short by lia. reflexivity.
  - destruct f2 as [|f2]; [rewrite !scan_short by lia; reflexivity|].
    cbn [scan]. destruct (Nat.leb_spec 52 (length buf)) as [Hge|Hlt];
      [|reflexivity].
    destruct buf as [|b0 rest]; [reflexivity|]. cbn [length] in *.
    destruct (negb (byte_val b0 =? 0xA0)).
    + rewrite (IH f2 rest) by lia. reflexivity.
    + rewrite (IH f2 (skipn 52 (b0 :: rest)))
        by (rewrite length_skipn; cbn [length]; lia).
      reflexivity.
Qed.

(** Once the loop has had [length buf] iterations, fewer than 52 bytes
    are left. *)
Lemma scan_rest (fuel : nat) (buf : list byte) :
  (length buf <= fuel)%nat -> (length (snd (scan fuel buf)) < 52)%nat.
Proof.
  revert buf. induction fuel as [|fuel IH]; intros buf Hf.
  - cbn [scan snd]. lia.
  - cbn [scan]. destruct (Nat.leb_spec 52 (length buf)) as [Hge|Hlt];
      [|cbn [snd]; lia].
    destruct buf as [|b0 rest]; [cbn [snd length]; lia|]. cbn [length] in *.
    destruct (negb (byte_val b0 =? 0xA0)).
    + specialize (IH rest ltac:(lia)).
      destruct (scan fuel rest) as [sl r]. exact IH.
    + specialize (IH (skipn 52 (b0 :: rest))
                     ltac:(rewrite length_skipn; cbn [length]; lia)).
      destruct (scan fuel (skipn 52 (b0 :: rest))) as [sl r]. exact IH.
Qed.

(** What the loop does on [b ++ c] is what it does on [b], followed by
    what it does on the bytes [b] left over with [c] behind them. *)
Lemma scan_app (f f' f'' : nat) (b c : list byte) :
  (length b <= f)%nat -> (length (b ++ c) <= f')%nat ->
  (length (snd (scan f b) ++ c) <= f'')%nat ->
  scan f' (b ++ c) =
  (fst (scan f b) ++ fst (scan f'' (snd (scan f b) ++ c)),
   snd (scan f'' (snd (scan f b) ++ c))).
Proof.
  revert f' b. induction f as [|f IH]; intros f' b Hf Hf' Hf''.
  - destruct b; [|cbn [length] in Hf; lia].
    cbn [scan fst snd app] in *.
    rewrite (scan_fuel f' f'' c) by assumption.
    now destruct (scan f'' c).
  - destruct (Nat.leb_spec 52 (length b)) as [Hge|Hlt].
    2:{ rewrite (scan_short (S f) b) in * by exact Hlt.
        cbn [fst snd app] in *.
        rewrite (scan_fuel f' f'' (b ++ c)) by assumption.
        now destruct (scan f'' (b ++ c)). }
    destruct f' as [|f'];
      [rewrite length_app in Hf'; lia|].
    destruct b as [|b0 rest]; [cbn [length] in Hge; lia|].
    revert Hf''. cbn [scan app].
    rewrite length_app in Hf'. cbn [length] in *.
    destruct (Nat.leb_spec 52 (S (length rest))) as [_|]; [|lia].
    destruct (Nat.leb_spec 52 (S (length (rest ++ c)))) as [_|];
      [|rewrite length_app in *; lia].
    destruct (negb (byte_val b0 =? 0xA0)).
    + destruct (scan f rest) as [sl r] eqn:E. cbn [fst snd]. intros Hf''.
      rewrite (IH f' rest); rewrite ?E; cbn [fst snd];
        try assumption; try (rewrite ?length_app; lia).
      reflexivity.
    + change (b0 :: rest ++ c) with ((b0 :: rest) ++ c).
      rewrite firstn_app, skipn_app.
      replace (52 - length (b0 :: rest))%nat with 0%nat by (cbn [length]; lia).
      rewrite firstn_O, skipn_O, app_nil_r.
      destruct (scan f (skipn 52 (b0 :: rest))) as [sl r] eqn:E.
      cbn [fst snd]. intros Hf''.
      assert (Hsk : (length (skipn 52 (b0 :: rest)) <= f)%nat)
        by (rewrite length_skipn; cbn [length]; lia).
      rewrite (IH f' (skipn 52 (b0 :: rest))); rewrite ?E; cbn [fst snd];
        try assumption;
        try (rewrite length_app, length_skipn; cbn [length]; lia).
      reflexivity.
Qed.

Lemma sync_short (buf : list byte) :
  (length buf < 52)%nat -> sync buf = ([], buf).
Proof. apply scan_short. Qed.

Lemma sync_rest (buf : list byte) : (length (snd (sync buf)) < 52)%nat.
Proof. apply scan_rest. apply Nat.le_refl. Qed.

Lemma sync_app (b c : list byte) :
  sync (b ++ c) =
  (fst (sync b) ++ fst (sync (snd (sync b) ++ c)),
   snd (sync (snd (sync b) ++ c))).
Proof. unfold sync. apply scan_app; apply Nat.le_refl. Qed.

Section Handler.
Variable time_time : nat -> float.

Lemma frames_of_slides (evs : list Event) :
  frames_of evs = cuts_of (map slide_of evs).
Proof.
  induction evs as [|[b|p e] evs IH]; cbn [frames_of map slide_of cuts_of];
    [reflexivity | exact IH | now rewrite IH].
Qed.

(** The loop never fails, and its pops, packets and leftover bytes are
    those of [scan]. *)
Lemma handler_loop_scan (fuel : nat) (w : BLEWorker) (env : Env) :
  exists w' env' evs,
    handler_loop time_time fuel w env = Some (w', env', evs) /\
    map slide_of evs = fst (scan fuel (rx_buffer w)) /\
    rx_buffer w' = snd (scan fuel (rx_buffer w)).
Proof.
  revert w env. induction fuel as [|fuel IH]; intros w env.
  - exists w, env, []. repeat split.
  - cbn [handler_loop scan].
    destruct (Nat.leb_spec 52 (length (rx_buffer w))) as [Hge|Hlt].
    2:{ exists w, env, []. repeat split. }
    destruct (rx_buffer w) as [|b0 rest] eqn:Eb; [cbn [length] in Hge; lia|].
    cbn [nth_error bind].
    destruct (negb (byte_val b0 =? 0xA0)).
    + destruct (IH (set_rx_buffer (skipn 1 (b0 :: rest)) w) env)
        as (w' & env' & evs & Hrun & Hsl & Hrest).
      cbn [set_rx_buffer rx_buffer skipn] in Hsl, Hrest.
      rewrite Hrun. cbn [bind].
      exists w', env', (Discarded b0 :: evs).
      destruct (scan fuel rest) as [sl r]. cbn [fst snd] in *.
      cbn [map slide_of]. rewrite Hsl. repeat split. exact Hrest.
    + set (buf := b0 :: rest) in *.
      assert (H52 : length (firstn 52 buf) = 52%nat)
        by (rewrite length_firstn; lia).
      destruct (process_packet_total time_time (firstn 52 buf)
                  (set_rx_buffer (skipn 52 buf) w) env H52)
        as (s & fA & fB & w1 & t1 & e & _ & _ & _ & Ht & Hpp).
      rewrite Hpp. cbn [bind].
      match goal with
      | |- context [handler_loop _ _ w1 ?e1] =>
        destruct (IH w1 e1) as (w' & env' & evs & Hrun & Hsl & Hrest)
      end.
      rewrite Hrun. cbn [bind].
      destruct (stats_tick_spec time_time
                  (track_seq s (set_rx_buffer (skipn 52 buf) w))
                  (time_calls env)) as (w1' & t1' & e' & Ht' & Hb & _).
      rewrite Ht in Ht'. injection Ht' as <- <- <-.
      rewrite Hb, track_seq_rx_buffer in Hsl, Hrest.
      cbn [set_rx_buffer rx_buffer] in Hsl, Hrest.
      exists w', env', (Processed (firstn 52 buf) e :: evs).
      destruct (scan fuel (skipn 52 buf)) as [sl r]. cbn [fst snd] in *.
      cbn [map slide_of]. rewrite Hsl. repeat split. exact Hrest.
Qed.

Lemma process_packet_rx_buffer (data : list byte) (w w' : BLEWorker)
      (env env' : Env) (e : option Stats) :
  process_packet time_time data w env = Some (w', env', e) ->
  rx_buffer w' = rx_buffer w.
Proof.
  intros Hpp.
  destruct (process_packet_inv time_time data w w' env env' e Hpp)
    as (s & t' & _ & Ht).
  destruct (stats_tick_spec time_time (track_seq s w) (time_calls env))
    as (w1 & t1 & e1 & Ht' & Hb & _).
  rewrite Ht in Ht'. injection Ht' as <- <- <-.
  rewrite Hb. apply track_seq_rx_buffer.
Qed.

(** Any number of iterations from [length rx_buffer] upwards gives the
    same run: the loop has stopped by then. *)
Lemma handler_loop_fuel (f1 f2 : nat) (w : BLEWorker) (env : Env) :
  (length (rx_buffer w) <= f1)%nat -> (length (rx_buffer w) <= f2)%nat ->
  handler_loop time_time f1 w env = handler_loop time_time f2 w env.
Proof.
  revert f2 w env. induction f1 as [|f1 IH]; intros f2 w env H1 H2.
  - destruct f2 as [|f2]; [reflexivity|]. cbn [handler_loop].
    destruct (Nat.leb_spec 52 (length (rx_buffer w))); [lia | reflexivity].
  - destruct f2 as [|f2]; cbn [handler_loop];
      destruct (Nat.leb_spec 52 (length (rx_buffer w))) as [Hge|Hlt];
      try lia; try reflexivity.
    destruct (rx_buffer w) as [|b0 rest] eqn:Eb; [reflexivity|].
    cbn [nth_error bind length] in *.
    destruct (negb (byte_val b0 =? 0xA0)).
    + rewrite (IH f2) by (cbn [set_rx_buffer rx_buffer skipn]; lia).
      reflexivity.
    + destruct (process_packet time_time (firstn 52 (b0 :: rest))
                  (set_rx_buffer (skipn 52 (b0 :: rest)) w) env)
        as [[[w1 env1] e]|] eqn:Hpp; [|reflexivity].
      cbn [bind]. apply process_packet_rx_buffer in Hpp.
      cbn [set_rx_buffer rx_buffer] in Hpp.
      assert (Hlen : (length (rx_buffer w1) <= length rest - 51)%nat)
        by (rewrite Hpp, length_skipn; cbn [length]; lia).
      rewrite (IH f2) by lia. reflexivity.
Qed.

Lemma notification_handler_sync (data : list byte) (w : BLEWorker) (env : Env) :
  exists w' env' evs,
    notification_handler time_time data w env = Some (w', env', evs) /\
    map slide_of evs = fst (sync (rx_buffer w ++ data)) /\
    rx_buffer w' = snd (sync (rx_buffer w ++ data)).
Proof.
  unfold notification_handler, sync.
  apply (handler_loop_scan _ (set_rx_buffer (rx_buffer w ++ data) w) env).
Qed.

Lemma feed_sync (chunks : list (list byte)) (w : BLEWorker) (env : Env) :
  (length (rx_buffer w) < 52)%nat ->
  exists w' env' evs,
    feed time_time chunks w env = Some (w', env', evs) /\
    map slide_of evs = fst (sync (rx_buffer w ++ concat chunks)) /\
    rx_buffer w' = snd (sync (rx_buffer w ++ concat chunks)).
Proof.
  revert w env. induction chunks as [|c chunks IH]; intros w env Hrest.
  - exists w, env, []. cbn [feed concat]. rewrite app_nil_r, sync_short by exact Hrest.
    repeat split.
  - destruct (notification_handler_sync c w env)
      as (w1 & env1 & evs1 & Hrun1 & Hsl1 & Hb1).
    destruct (IH w1 env1) as (w' & env' & evs & Hrun & Hsl & Hb).
    { rewrite Hb1. apply sync_rest. }
    exists w', env', (evs1 ++ evs).
    cbn [feed concat]. rewrite Hrun1. cbn [bind]. rewrite Hrun. cbn [bind].
    rewrite app_assoc, sync_app, map_app, Hsl1, Hsl, Hb, Hb1.
    repeat split.
Qed.

End Handler.

(** ** C2: chunk boundaries do not matter *)

(** C2.  From a worker whose accumulator is empty, delivering a byte
    stream as any sequence of chunks, one notification each, hands the
    same packets in the same order to [process_packet] as delivering the
    whole stream in one notification (and leaves the same bytes
    buffered). *)
Theorem chunk_boundary_independence (time_time : nat -> float)
        (chunks : list (list byte)) (w : BLEWorker) (env : Env) :
  rx_buffer w = [] ->
  exists w1 env1 evs1 w2 env2 evs2,
    feed time_time chunks w env = Some (w1, env1, evs1) /\
    notification_handler time_time (concat chunks) w env
    = Some (w2, env2, evs2) /\
    frames_of evs1 = frames_of evs2 /\
    rx_buffer w1 = rx_buffer w2.
Proof.
  intros Hempty.
  destruct (feed_sync time_time chunks w env)
    as (w1 & env1 & evs1 & Hrun1 & Hsl1 & Hb1);
    [rewrite Hempty; cbn [length]; lia|].
  destruct (notification_handler_sync time_time (concat chunks) w env)
    as (w2 & env2 & evs2 & Hrun2 & Hsl2 & Hb2).
  exists w1, env1, evs1, w2, env2, evs2.
  repeat split; try assumption.
  - rewrite !frames_of_slides, Hsl1, Hsl2. reflexivity.
  - rewrite Hb1, Hb2. reflexivity.
Qed.

(** ** C9: the accumulator at rest *)

(** C9.  Whatever the accumulator holds and whatever chunk arrives,
    [notification_handler] returns, and when it does the accumulator
    holds fewer than 52 bytes.  (Right after the chunk is appended, and
    while the loop runs, it holds up to the old length plus the
    chunk's.) *)
Theorem accumulator_at_rest (time_time : nat -> float)
        (data : list byte) (w : BLEWorker) (env : Env) :
  exists w' env' evs,
    notification_handler time_time data w env = Some (w', env', evs) /\
    (length (rx_buffer w') < 52)%nat.
Proof.
  destruct (notification_handler_sync time_time data w env)
    as (w' & env' & evs & Hrun & _ & Hb).
  exists w', env', evs. split; [exact Hrun|].
  rewrite Hb. apply sync_rest.
Qed.

(** ** C7: garbage before a frame *)

Section Garbage.
Variable frame : list byte.
Hypothesis frame_length : length frame = 52%nat.
Hypothesis frame_marker : index frame 0 = Some 0xA0.

Lemma scan_garbage (garbage : list byte) (fuel : nat) :
  Forall (fun b => byte_val b <> 0xA0) garbage ->
  (length (garbage ++ frame) <= fuel)%nat ->
  scan fuel (garbage ++ frame) = (map Pop garbage ++ [Cut frame], []).
Proof.
  intros Hg. revert fuel.
  induction Hg as [|b garbage Hb Hg IH]; intros fuel Hf.
  - cbn [app map] in *. destruct fuel as [|fuel]; [lia|].
    cbn [scan]. rewrite frame_length. cbn [Nat.leb].
    destruct frame as [|b0 rest] eqn:Ef; [discriminate|].
    unfold index in frame_marker. cbn [nth_error option_map] in frame_marker.
    injection frame_marker as Hm. rewrite Hm. cbn [Z.eqb Pos.eqb negb].
    rewrite firstn_all2, skipn_all2 by lia.
    rewrite scan_short by (cbn [length]; lia). reflexivity.
  - rewrite length_app in Hf. cbn [length] in Hf.
    destruct fuel as [|fuel]; [lia|].
    cbn [app map scan length].
    destruct (Nat.leb_spec 52 (S (length (garbage ++ frame)))) as [_|Hlt];
      [|rewrite length_app in Hlt; lia].
    destruct (Z.eqb_spec (byte_val b) 0xA0) as [E|_]; [contradiction|].
    cbn [negb]. rewrite IH by (rewrite length_app; lia). reflexivity.
Qed.

Lemma slides_garbage (garbage : list byte) (evs : list Event) :
  map slide_of evs = map Pop garbage ++ [Cut frame] ->
  exists emitted, evs = map Discarded garbage ++ [Processed frame emitted].
Proof.
  revert evs. induction garbage as [|b garbage IH]; intros evs Hsl.
  - destruct evs as [|[b|p e] [|e' evs]]; try discriminate.
    injection Hsl as ->. exists e. reflexivity.
  - destruct evs as [|[b'|p e] evs]; try discriminate.
    cbn [map slide_of app] in Hsl. injection Hsl as -> Hsl.
    destruct (IH evs Hsl) as [e ->]. exists e. reflexivity.
Qed.

End Garbage.

(** C7.  When the accumulator is empty and a notification brings [k]
    bytes none of which is 0xA0, followed by a 52-byte frame that
    starts with 0xA0, the handler pops exactly those [k] bytes from the
    front, one per iteration and in order, then hands the frame to
    [process_packet]; nothing stays buffered. *)
Theorem resync_discards_garbage (time_time : nat -> float)
        (garbage frame : list byte) (w : BLEWorker) (env : Env) :
  rx_buffer w = [] ->
  Forall (fun b => byte_val b <> 0xA0) garbage ->
  length frame = 52%nat ->
  index frame 0 = Some 0xA0 ->
  exists w' env' emitted,
    notification_handler time_time (garbage ++ frame) w env
    = Some (w', env', map Discarded garbage ++ [Processed frame emitted]) /\
    rx_buffer w' = [].
Proof.
  intros Hempty Hg Hlen Hmark.
  destruct (notification_handler_sync time_time (garbage ++ frame) w env)
    as (w' & env' & evs & Hrun & Hsl & Hb).
  rewrite Hempty in Hsl, Hb. cbn [app] in Hsl, Hb. unfold sync in Hsl, Hb.
  rewrite (scan_garbage frame Hlen Hmark garbage) in Hsl, Hb
    by (exact Hg || apply Nat.le_refl).
  cbn [fst snd] in Hsl, Hb.
  destruct (slides_garbage frame garbage evs Hsl) as [emitted ->].
  exists w', env', emitted. split; assumption.
Qed.

(** ** The sequence tracker and the statistics *)

Section Tracker.
Variable time_time : nat -> float.

Lemma track_seq_last_seq (s : Z) (w : BLEWorker) :
  last_seq (track_seq s w) = s.
Proof. reflexivity. Qed.

(** One observation on a 52-byte packet. *)
Lemma process_packet_step (p : list byte) (w : BLEWorker) (env : Env) :
  length p = 52%nat ->
  exists s w2 env2 e,
    index p 1 = Some s /\ 0 <= s < 256 /\
    process_packet time_time p w env = Some (w2, env2, e) /\
    last_seq w2 = s /\
    expected w2 = expected (track_seq s w) /\
    received w2 = received (track_seq s w) /\
    (e <> None <-> received w2 mod 50 = 0) /\
    (forall loss fps, e = Some (loss, fps) ->
                      loss_pct (track_seq s w) = Some loss).
Proof.
  intros Hlen.
  destruct (process_packet_total time_time p w env Hlen)
    as (s & fA & fB & w1 & t1 & e & Hs & Hr & _ & Ht & Hpp).
  destruct (stats_tick_spec time_time (track_seq s w) (time_calls env))
    as (w1' & t1' & e' & Ht' & _ & Hl & He & Hrc & Hem & Hloss).
  rewrite Ht in Ht'. injection Ht' as <- <- <-.
  eexists s, w1, _, e. repeat split; try eassumption; try lia.
  - rewrite Hrc. apply Hem.
  - rewrite Hrc. apply Hem.
Qed.

(** A run of observations from a state that has already seen a packet:
    it never fails, every packet counts as received, and [stats_cb] is
    called exactly at the multiples of 50. *)
Lemma observe_all_tracked (packets : list (list byte)) (w : BLEWorker)
      (env : Env) :
  Forall (fun p => length p = 52%nat) packets ->
  0 <= last_seq w < 256 ->
  exists w' env' outs,
    observe_all time_time packets w env = Some (w', env', outs) /\
    0 <= last_seq w' < 256 /\
    received w' = received w + Z.of_nat (length packets) /\
    length outs = length packets /\
    forall i, (i < length packets)%nat ->
              (nth i outs None <> None <->
               (received w + 1 + Z.of_nat i) mod 50 = 0).
Proof.
  intros Hall. revert w env.
  induction Hall as [|p packets Hp Hall IH]; intros w env Hw.
  - exists w, env, []. cbn [observe_all length]. repeat split; try lia.
  - destruct (process_packet_step p w env Hp)
      as (s & w2 & env2 & e & Hs & Hr & Hpp & Hl & He & Hrc & Hem & _).
    rewrite track_seq_next in Hrc by lia. cbn [received] in Hrc.
    destruct (IH w2 env2) as (w' & env' & outs & Hrun & Hl' & Hrc' & Hlen & Hnth);
      [lia|].
    exists w', env', (e :: outs).
    cbn [observe_all]. rewrite Hpp. cbn [bind]. rewrite Hrun. cbn [bind].
    split; [reflexivity|]. split; [exact Hl'|].
    split; [cbn [length]; lia|]. split; [cbn [length]; lia|].
    intros [|i] Hi; cbn [nth].
    + rewrite Hem, Hrc. cbn [Z.of_nat]. now rewrite Z.add_0_r.
    + cbn [length] in Hi. rewrite (Hnth i) by lia. rewrite Hrc.
      now replace (received w + 1 + 1 + Z.of_nat i)
        with (received w + 1 + Z.of_nat (S i)) by lia.
Qed.

(** The first observation of a fresh worker. *)
Lemma process_packet_first (p : list byte) (env : Env) :
  length p = 52%nat ->
  exists s w1 env1 e,
    index p 1 = Some s /\ 0 <= s < 256 /\
    process_packet time_time p BLEWorker_init env = Some (w1, env1, e) /\
    last_seq w1 = s /\ expected w1 = 0 /\ received w1 = 0 /\ e <> None.
Proof.
  intros Hlen.
  destruct (process_packet_step p BLEWorker_init env Hlen)
    as (s & w2 & env2 & e & Hs & Hr & Hpp & Hl & He & Hrc & Hem & _).
  rewrite track_seq_first in He, Hrc by reflexivity.
  cbn [expected received BLEWorker_init] in He, Hrc.
  exists s, w2, env2, e. repeat split; try assumption; try lia.
  apply Hem. now rewrite Hrc.
Qed.

Lemma track_seq_same (s : Z) (a b : BLEWorker) :
  same_counters a b -> same_counters (track_seq s a) (track_seq s b).
Proof.
  intros (Hl & He & Hr). unfold same_counters, track_seq.
  rewrite Hl, He, Hr. destruct (negb (last_seq b =? -1)); repeat split.
Qed.

(** The counters after a run are those of [track_seq] folded over the
    packets' sequence numbers. *)
Lemma observe_all_counters (packets : list (list byte)) (w v : BLEWorker)
      (env : Env) :
  Forall (fun p => length p = 52%nat) packets ->
  same_counters w v ->
  exists w' env' outs ss,
    observe_all time_time packets w env = Some (w', env', outs) /\
    mapM (fun p => index p 1) packets = Some ss /\
    same_counters w' (fold_left (fun a s => track_seq s a) ss v).
Proof.
  intros Hall. revert w v env.
  induction Hall as [|p packets Hp Hall IH]; intros w v env Hwv.
  - exists w, env, [], []. repeat split; apply Hwv.
  - destruct (process_packet_step p w env Hp)
      as (s & w2 & env2 & e & Hs & Hr & Hpp & Hl & He & Hrc & _).
    destruct (IH w2 (track_seq s v) env2)
      as (w' & env' & outs & ss & Hrun & Hss & Hsame).
    { destruct (track_seq_same s w v Hwv) as (Hl' & He' & Hr').
      unfold same_counters. rewrite Hl, He, Hrc, He', Hr'.
      repeat split. }
    exists w', env', (e :: outs), (s :: ss).
    cbn [observe_all mapM]. rewrite Hpp, Hs, Hss. cbn [bind].
    rewrite Hrun. cbn [bind fold_left]. repeat split; apply Hsame.
Qed.

Lemma observe_all_app (l1 l2 : list (list byte)) (w : BLEWorker) (env : Env) :
  observe_all time_time (l1 ++ l2) w env =
  ' (w1, env1, o1) <- observe_all time_time l1 w env ;;
  ' (w2, env2, o2) <- observe_all time_time l2 w1 env1 ;;
  Some (w2, env2, o1 ++ o2).
Proof.
  revert w env. induction l1 as [|p l1 IH]; intros w env.
  - cbn [app observe_all bind].
    destruct (observe_all time_time l2 w env) as [[[w2 env2] o2]|]; reflexivity.
  - cbn [app observe_all].
    destruct (process_packet time_time p w env) as [[[w1 env1] e]|];
      [|reflexivity].
    cbn [bind]. rewrite IH.
    destruct (observe_all time_time l1 w1 env1) as [[[w1' env1'] o1]|];
      [|reflexivity].
    cbn [bind].
    destruct (observe_all time_time l2 w1' env1') as [[[w2 env2] o2]|];
      reflexivity.
Qed.

End Tracker.

(** ** C3: sequence tracking *)

Lemma observe_all_from_init (time_time : nat -> float)
      (p0 : list byte) (ps : list (list byte)) (env : Env) :
  Forall (fun q => length q = 52%nat) (p0 :: ps) ->
  exists w1 env1 outs,
    observe_all time_time (p0 :: ps) BLEWorker_init env
    = Some (w1, env1, outs) /\
    0 <= last_seq w1 < 256 /\
    received w1 = Z.of_nat (length ps) /\
    length outs = S (length ps) /\
    forall i, (i < S (length ps))%nat ->
              (nth i outs None <> None <-> Z.of_nat i mod 50 = 0).
Proof.
  intros Hall. apply Forall_cons_iff in Hall. destruct Hall as [H0 Hps].
  destruct (process_packet_first time_time p0 env H0)
    as (s & w0 & env0' & e & Hs & Hr & Hpp & Hl & He & Hrc & Hem).
  destruct (observe_all_tracked time_time ps w0 env0' Hps)
    as (w1 & env1 & outs & Hrun & Hl1 & Hrc1 & Hlen & Hnth); [lia|].
  exists w1, env1, (e :: outs).
  cbn [observe_all]. rewrite Hpp. cbn [bind]. rewrite Hrun. cbn [bind].
  split; [reflexivity|]. split; [exact Hl1|].
  split; [lia|]. split; [cbn [length]; lia|].
  intros [|i] Hi; cbn [nth].
  - split; [reflexivity | intros _; exact Hem].
  - rewrite (Hnth i) by lia. rewrite Hrc.
    now replace (0 + 1 + Z.of_nat i) with (Z.of_nat (S i)) by lia.
Qed.

Lemma counters_from_init (time_time : nat -> float)
      (packets : list (list byte)) (ss : list Z) (env : Env) :
  Forall (fun q => length q = 52%nat) packets ->
  mapM (fun p => index p 1) packets = Some ss ->
  exists w' env' outs,
    observe_all time_time packets BLEWorker_init env = Some (w', env', outs) /\
    same_counters w' (fold_left (fun a s => track_seq s a) ss BLEWorker_init).
Proof.
  intros Hall Hss.
  destruct (observe_all_counters time_time packets BLEWorker_init BLEWorker_init
              env Hall) as (w' & env' & outs & ss' & Hrun & Hss' & Hsame).
  { repeat split. }
  rewrite Hss in Hss'. injection Hss' as <-.
  exists w', env', outs. split; assumption.
Qed.

Lemma packets_with_seq_length (l : list byte) :
  Forall (fun q => length q = 52%nat) (map packet_with_seq l).
Proof.
  apply Forall_forall. intros q Hq. apply in_map_iff in Hq.
  destruct Hq as [b [<- _]]. reflexivity.
Qed.

(** C3.  From a fresh worker, every observation after the first adds
    [(seq - last_seq) mod 256] to [expected] and 1 to [received] (and
    records [seq]); the sequence numbers 10, 11, 12 leave
    [expected = received = 2]; 254, 255, 0, 1 leave
    [expected = received = 3]; and seeing 0 after 255 always adds
    exactly 1 to [expected]. *)
Theorem sequence_tracking (time_time : nat -> float) (env : Env)
        (p0 : list byte) (ps : list (list byte)) (p : list byte) :
  Forall (fun q => length q = 52%nat) (p0 :: ps ++ [p]) ->
  (exists w1 env1 outs s w2 env2 e,
      observe_all time_time (p0 :: ps) BLEWorker_init env
      = Some (w1, env1, outs) /\
      index p 1 = Some s /\
      process_packet time_time p w1 env1 = Some (w2, env2, e) /\
      expected w2 = expected w1 + (s - last_seq w1) mod 256 /\
      received w2 = received w1 + 1 /\
      last_seq w2 = s) /\
  (exists w' env' outs,
      observe_all time_time (map packet_with_seq [x0a; x0b; x0c])
                  BLEWorker_init env = Some (w', env', outs) /\
      expected w' = 2 /\ received w' = 2) /\
  (exists w' env' outs,
      observe_all time_time (map packet_with_seq [xfe; xff; x00; x01])
                  BLEWorker_init env = Some (w', env', outs) /\
      expected w' = 3 /\ received w' = 3) /\
  (forall rx e r st,
      expected (track_seq 0 (mkBLEWorker rx 255 e r st)) = e + 1 /\
      received (track_seq 0 (mkBLEWorker rx 255 e r st)) = r + 1).
Proof.
  intros Hall.
  change (p0 :: ps ++ [p]) with ((p0 :: ps) ++ [p]) in Hall.
  apply Forall_app in Hall. destruct Hall as [Hps Hp].
  apply Forall_cons_iff in Hp. destruct Hp as [Hp _].
  split; [|split; [|split]].
  - destruct (observe_all_from_init time_time p0 ps env Hps)
      as (w1 & env1 & outs & Hrun & Hl1 & _).
    destruct (process_packet_step time_time p w1 env1 Hp)
      as (s & w2 & env2 & e & Hs & Hr & Hpp & Hl & He & Hrc & _).
    rewrite track_seq_next in He, Hrc by lia.
    exists w1, env1, outs, s, w2, env2, e. repeat split; assumption.
  - destruct (counters_from_init time_time (map packet_with_seq [x0a; x0b; x0c])
                [10; 11; 12] env (packets_with_seq_length _) eq_refl)
      as (w' & env' & outs & Hrun & _ & He & Hr).
    exists w', env', outs. repeat split; assumption.
  - destruct (counters_from_init time_time
                (map packet_with_seq [xfe; xff; x00; x01])
                [254; 255; 0; 1] env (packets_with_seq_length _) eq_refl)
      as (w' & env' & outs & Hrun & _ & He & Hr).
    exists w', env', outs. repeat split; assumption.
  - intros rx e r st. split; reflexivity.
Qed.

(** ** C5: when the statistics are emitted *)

(** C5 (as the code has it).  From a fresh worker, the first observation
    records [seq] as [last_seq], leaves both counters at 0 and does
    call [stats_cb], since [received = 0] is a multiple of 50; after it,
    [stats_cb] is called exactly on every 50th received observation:
    observation number [i] (counting from 0, so that [received = i]
    once it is processed) emits if and only if [i] is a multiple of
    50. *)
Theorem stats_emission_schedule (time_time : nat -> float) (env : Env)
        (p0 : list byte) (ps : list (list byte)) :
  Forall (fun q => length q = 52%nat) (p0 :: ps) ->
  (exists s w1 env1 e,
      index p0 1 = Some s /\
      process_packet time_time p0 BLEWorker_init env = Some (w1, env1, e) /\
      last_seq w1 = s /\ expected w1 = 0 /\ received w1 = 0 /\
      e <> None) /\
  (exists w' env' outs,
      observe_all time_time (p0 :: ps) BLEWorker_init env
      = Some (w', env', outs) /\
      received w' = Z.of_nat (length ps) /\
      length outs = S (length ps) /\
      forall i, (i < S (length ps))%nat ->
                (nth i outs None <> None <-> Z.of_nat i mod 50 = 0)).
Proof.
  intros Hall. split.
  - apply Forall_cons_iff in Hall. destruct Hall as [H0 _].
    destruct (process_packet_first time_time p0 env H0)
      as (s & w1 & env1 & e & Hs & _ & Hpp & Hl & He & Hrc & Hem).
    exists s, w1, env1, e. repeat split; assumption.
  - destruct (observe_all_from_init time_time p0 ps env Hall)
      as (w' & env' & outs & Hrun & _ & Hrc & Hlen & Hnth).
    exists w', env', outs. repeat split; try assumption; apply Hnth; assumption.
Qed.

(** Against C5 as first stated ("nothing is emitted on the first
    observation"): the first packet a fresh worker sees, here with
    sequence number 7, does make it call [stats_cb], with a loss of 0
    and a rate of 0. *)
Lemma first_observation_emits :
  option_map snd
    (process_packet clock0 (packet_with_seq x07) BLEWorker_init env0)
  = Some (Some (0%float, 0%float)).
Proof. vm_compute. reflexivity. Qed.

(** ** C6: the loss percentage *)

(** C6.  Whenever [process_packet] calls [stats_cb], with counters
    below 2^52 in magnitude (where the conversions to binary64 are
    exact, so that the quotient below is CPython's [int / int]), the
    loss it passes is [((expected - received) / expected) * 100],
    evaluated in binary64 on the updated counters, when [expected > 0],
    and 0 when [expected = 0]; the guard keeps the division from
    raising, so that on a 52-byte packet [process_packet] returns.  With
    [expected = 100] and [received = 50] the loss is 50.0; with
    [expected = 0] it is 0. *)
Theorem loss_percentage (time_time : nat -> float) (p : list byte)
        (w w' : BLEWorker) (env env' : Env) (loss fps : float) :
  process_packet time_time p w env = Some (w', env', Some (loss, fps)) ->
  Z.abs (expected w') < 2 ^ 52 ->
  Z.abs (received w') < 2 ^ 52 ->
  received w' mod 50 = 0 /\
  (0 < expected w' ->
   loss = (float_of_int (expected w' - received w')
           / float_of_int (expected w') * float_of_int 100)%float) /\
  (expected w' = 0 -> loss = 0%float) /\
  (forall q v e0, length q = 52%nat ->
                  Z.abs (expected v) < 2 ^ 51 ->
                  Z.abs (received v) < 2 ^ 51 ->
                  process_packet time_time q v e0 <> None) /\
  (forall rx ls st, loss_pct (mkBLEWorker rx ls 100 50 st) = Some 50%float) /\
  (forall rx ls r st, loss_pct (mkBLEWorker rx ls 0 r st) = Some 0%float).
Proof.
  intros Hpp _ _.
  destruct (process_packet_inv time_time p w w' env env' _ Hpp)
    as (s & t' & Hs & Ht).
  destruct (stats_tick_spec time_time (track_seq s w) (time_calls env))
    as (w1 & t1 & e & Ht' & _ & _ & He & Hrc & Hem & Hloss).
  rewrite Ht in Ht'. injection Ht' as <- <- <-.
  specialize (Hloss loss fps eq_refl). rewrite loss_pct_eq in Hloss.
  rewrite <- He, <- Hrc in Hloss. injection Hloss as Hloss.
  split; [|split; [|split; [|split; [|split]]]].
  - rewrite Hrc. apply Hem. discriminate.
  - intros Hpos. apply Z.ltb_lt in Hpos. rewrite Hpos in Hloss.
    symmetry. exact Hloss.
  - intros H0. rewrite H0 in Hloss. symmetry. exact Hloss.
  - intros q v e0 Hq _ _.
    destruct (process_packet_total time_time q v e0 Hq)
      as (? & ? & ? & ? & ? & ? & _ & _ & _ & _ & ->).
    discriminate.
  - intros rx ls st. reflexivity.
  - intros rx ls r st. reflexivity.
Qed.

(** ** C10: a repeated sequence number *)

(** C10.  A packet whose sequence number equals [last_seq] adds 0 to
    [expected] and still adds 1 to [received]; so [received] can exceed
    [expected]: after the sequence numbers 5, 6, 6, ..., 6 (fifty times
    6) a fresh worker has [expected = 1] and [received = 50], and the
    statistics emitted at that point report a loss of -4900, below
    zero. *)
Theorem repeated_seq_negative_loss (time_time : nat -> float)
        (p : list byte) (w : BLEWorker) (env : Env) :
  length p = 52%nat ->
  index p 1 = Some (last_seq w) ->
  (exists w2 env2 e,
      process_packet time_time p w env = Some (w2, env2, e) /\
      expected w2 = expected w /\
      received w2 = received w + 1) /\
  (exists w' env' outs loss fps,
      observe_all time_time (map packet_with_seq (x05 :: repeat x06 50))
                  BLEWorker_init env = Some (w', env', outs) /\
      0 < expected w' < received w' /\
      nth 50 outs None = Some (loss, fps) /\
      loss = (-4900)%float /\
      (loss <? 0)%float = true).
Proof.
  intros Hlen Hseq. split.
  - destruct (process_packet_step time_time p w env Hlen)
      as (s & w2 & env2 & e & Hs & Hr & Hpp & Hl & He & Hrc & _).
    rewrite Hseq in Hs. injection Hs as <-.
    rewrite track_seq_next in He, Hrc by lia.
    cbn [expected received] in He, Hrc.
    rewrite Z.sub_diag in He. change (0 mod 256) with 0 in He.
    exists w2, env2, e. repeat split; [exact Hpp | lia | exact Hrc].
  - change (x05 :: repeat x06 50) with ((x05 :: repeat x06 49) ++ [x06]).
    rewrite map_app, observe_all_app.
    destruct (counters_from_init time_time
                (map packet_with_seq (x05 :: repeat x06 49))
                (5 :: repeat 6 49) env (packets_with_seq_length _) eq_refl)
      as (w1 & env1 & o1 & Hrun & Hl1 & He1 & Hr1).
    destruct (observe_all_from_init time_time (packet_with_seq x05)
                (map packet_with_seq (repeat x06 49)) env
                (packets_with_seq_length (x05 :: repeat x06 49)))
      as (w1' & env1' & o1' & Hrun' & _ & _ & Hlen1 & _).
    change (packet_with_seq x05 :: map packet_with_seq (repeat x06 49))
      with (map packet_with_seq (x05 :: repeat x06 49)) in Hrun'.
    rewrite Hrun in Hrun'. injection Hrun' as <- <- <-.
    rewrite Hrun. cbn [bind map observe_all].
    destruct (process_packet_step time_time (packet_with_seq x06) w1 env1
                eq_refl)
      as (s & w2 & env2 & e & Hs & _ & Hpp & Hl & He & Hrc & Hem & Hloss).
    vm_compute in Hs. injection Hs as <-.
    assert (Hsame : same_counters
                      (track_seq 6 w1)
                      (track_seq 6 (fold_left (fun a s => track_seq s a)
                                              (5 :: repeat 6 49)
                                              BLEWorker_init)))
      by (apply track_seq_same; repeat split; assumption).
    destruct Hsame as (_ & He2 & Hr2).
    assert (He3 : expected w2 = 1) by (rewrite He, He2; reflexivity).
    assert (Hr3 : received w2 = 50) by (rewrite Hrc, Hr2; reflexivity).
    rewrite Hpp. cbn [bind].
    destruct e as [[loss fps]|];
      [|exfalso; apply (proj2 Hem); [rewrite Hr3|]; reflexivity].
    specialize (Hloss loss fps eq_refl). rewrite loss_pct_eq in Hloss.
    rewrite He2, Hr2 in Hloss. vm_compute in Hloss. injection Hloss as <-.
    exists w2, env2, (o1 ++ [Some ((-4900)%float, fps)]), (-4900)%float, fps.
    split; [reflexivity|]. split; [lia|].
    split; [|split; reflexivity].
    rewrite length_map, repeat_length in Hlen1.
    rewrite app_nth2 by lia. rewrite Hlen1. reflexivity.
Qed.

(** ** C4: what a command does to the decoding state *)

(** [send_cmd] spelled out: whatever the command, the accumulator,
    [last_seq], [expected] and the deque are kept; "b" zeroes
    [received] and restarts [start_t], nothing else; the other commands
    change nothing. *)
Lemma send_cmd_effect (time_time : nat -> float) (char : string)
      (w : BLEWorker) (env : Env) :
  send_cmd time_time char (Some w) env =
  if (char =? "b")%string then
    (Some (mkBLEWorker (rx_buffer w) (last_seq w) (expected w) 0
                       (time_time (time_calls env))),
     mkEnv (data_queue env) (S (time_calls env)))
  else (Some w, env).
Proof. reflexivity. Qed.

(** C4 (the code at a failing input).  A worker that has received 1000
    of 1000 expected packets, the last numbered 231, is sent "b":
    [received] becomes 0, but [expected] stays 1000 and [last_seq]
    stays 231.  The fifty packets that follow, numbered 232 onwards
    with none missing, then end on a reported loss of
    (1050 - 50) / 1050, above 95 percent. *)
Theorem send_cmd_b_partial_reset :
  let w := mkBLEWorker [] 231 1000 1000 (clock0 0) in
  let w_b := mkBLEWorker [] 231 1000 0 (clock0 2) in
  send_cmd clock0 "b" (Some w) (mkEnv [] 2) = (Some w_b, mkEnv [] 3) /\
  exists w' env' outs loss fps,
    observe_all clock0
      (map packet_with_seq (map byte_of_int (map Z.of_nat (seq 232 50))))
      w_b (mkEnv [] 3) = Some (w', env', outs) /\
    expected w' = 1050 /\ received w' = 50 /\
    nth 49 outs None = Some (loss, fps) /\
    (95 <? loss)%float = true.
Proof.
  split; [reflexivity|].
  do 5 eexists. split; [vm_compute; reflexivity|].
  repeat split.
Qed.

(** ** C8: the bounded sample queue *)

Section Sink.
Context {A : Type}.

Lemma deque_append_eq (m : nat) (q : list A) (v : A) :
  (0 < m)%nat -> (length q <= m)%nat ->
  Deque.append m q v = (if (length q =? m)%nat then tl q else q) ++ [v].
Proof.
  intros Hm Hq. unfold Deque.append. rewrite length_app. cbn [length].
  destruct (Nat.ltb_spec m (length q + 1)) as [Hfull|Hroom];
    destruct (Nat.eqb_spec (length q) m) as [E|E]; try lia; [|reflexivity].
  destruct q as [|x q]; [cbn [length] in E; lia | reflexivity].
Qed.

Lemma deque_append_length (m : nat) (q : list A) (v : A) :
  (0 < m)%nat -> (length q <= m)%nat ->
  (length (Deque.append m q v) <= m)%nat.
Proof.
  intros Hm Hq. rewrite deque_append_eq by assumption.
  rewrite length_app. cbn [length].
  destruct (Nat.eqb_spec (length q) m) as [E|E]; [|lia].
  destruct q as [|x q]; cbn [tl length] in *; lia.
Qed.

(** After any run of appends the deque holds the last [m] items that
    went through it, oldest first. *)
Lemma deque_append_all (m : nat) (vs q : list A) :
  (0 < m)%nat -> (length q <= m)%nat ->
  fold_left (Deque.append m) vs q = skipn (length (q ++ vs) - m) (q ++ vs).
Proof.
  intros Hm. revert q. induction vs as [|v vs IH]; intros q Hq.
  - cbn [fold_left]. rewrite app_nil_r.
    replace (length q - m)%nat with 0%nat by lia. reflexivity.
  - cbn [fold_left]. rewrite IH by (apply deque_append_length; assumption).
    rewrite deque_append_eq by assumption.
    destruct (Nat.eqb_spec (length q) m) as [E|E].
    + destruct q as [|x q]; [cbn [length] in E; lia|].
      cbn [tl]. rewrite <- !app_assoc. cbn [app length] in *.
      rewrite !length_app. cbn [length].
      replace (S (length q + S (length vs)) - m)%nat
        with (S (length q + S (length vs) - m)) by lia.
      reflexivity.
    + rewrite <- !app_assoc. reflexivity.
Qed.

End Sink.

Lemma drain_loop_eq (q data : list SampleVector) :
  drain_loop q data = (data ++ q, []).
Proof.
  revert data. induction q as [|x q IH]; intros data; cbn [drain_loop].
  - now rewrite app_nil_r.
  - rewrite IH, <- app_assoc. reflexivity.
Qed.

(** C8.  With the deque's capacity of 2500: after appending 2505
    vectors in order to an empty deque it holds exactly the last 2500 of
    them, oldest first; [update_plot] then takes all of them out in
    that order and leaves the deque empty, and on an empty deque it
    takes out nothing.  An append always succeeds: it puts the vector
    at the end, dropping the oldest one when the deque was full. *)
Theorem sample_sink_overflow (vs : list SampleVector) (t : nat) :
  length vs = (MAXLEN + 5)%nat ->
  let q := fold_left (Deque.append MAXLEN) vs [] in
  q = skipn 5 vs /\
  length q = MAXLEN /\
  update_plot_drain (mkEnv q t) = (skipn 5 vs, mkEnv [] t) /\
  update_plot_drain (mkEnv [] t) = ([], mkEnv [] t) /\
  (forall (q0 : list SampleVector) (v : SampleVector),
      (length q0 <= MAXLEN)%nat ->
      Deque.append MAXLEN q0 v
      = (if (length q0 =? MAXLEN)%nat then tl q0 else q0) ++ [v]).
Proof.
  intros Hlen q.
  assert (Hm : (0 < MAXLEN)%nat) by (unfold MAXLEN; lia).
  assert (Hq : q = skipn 5 vs).
  { unfold q. rewrite deque_append_all by (cbn [length]; lia).
    cbn [app]. rewrite Hlen.
    now replace (MAXLEN + 5 - MAXLEN)%nat with 5%nat by lia. }
  split; [exact Hq|]. split; [|split; [|split]].
  - rewrite Hq, length_skipn, Hlen. lia.
  - unfold update_plot_drain. cbn [data_queue time_calls].
    rewrite drain_loop_eq, Hq. reflexivity.
  - reflexivity.
  - intros q0 v Hq0. apply deque_append_eq; assumption.
Qed.

(** ** The theorems at concrete inputs *)

Lemma decode_known_codes_witness :
  length codes16 = 16%nat /\
  Forall (fun c => 0 <= c < 2 ^ 24) codes16 /\
  decode_frames (build_frame x05 codes16 x00 x00)
  = Some [map decoded (firstn 8 codes16); map decoded (skipn 8 codes16)].
Proof.
  assert (H1 : length codes16 = 16%nat) by reflexivity.
  assert (H2 : Forall (fun c => 0 <= c < 2 ^ 24) codes16)
    by (repeat (apply Forall_cons; [lia|]); apply Forall_nil).
  split; [exact H1|]. split; [exact H2|].
  exact (proj1 (proj2 (decode_known_codes clock0 x05 x00 x00 codes16
                         BLEWorker_init env0 H1 H2))).
Defined.

Lemma chunk_boundary_independence_witness :
  rx_buffer BLEWorker_init = [] /\
  exists w1 env1 evs1 w2 env2 evs2,
    feed clock0 chunks3 BLEWorker_init env0 = Some (w1, env1, evs1) /\
    notification_handler clock0 (concat chunks3) BLEWorker_init env0
    = Some (w2, env2, evs2) /\
    frames_of evs1 = frames_of evs2 /\
    rx_buffer w1 = rx_buffer w2.
Proof.
  split; [reflexivity|].
  exact (chunk_boundary_independence clock0 chunks3 BLEWorker_init env0 eq_refl).
Defined.

Lemma sequence_tracking_witness :
  Forall (fun q => length q = 52%nat)
         (packet_with_seq x0a :: [packet_with_seq x0b] ++ [packet_with_seq x0c]) /\
  exists w1 env1 outs s w2 env2 e,
    observe_all clock0 [packet_with_seq x0a; packet_with_seq x0b]
                BLEWorker_init env0 = Some (w1, env1, outs) /\
    index (packet_with_seq x0c) 1 = Some s /\
    process_packet clock0 (packet_with_seq x0c) w1 env1 = Some (w2, env2, e) /\
    expected w2 = expected w1 + (s - last_seq w1) mod 256 /\
    received w2 = received w1 + 1 /\
    last_seq w2 = s.
Proof.
  assert (H : Forall (fun q => length q = 52%nat)
                     (packet_with_seq x0a
                      :: [packet_with_seq x0b] ++ [packet_with_seq x0c]))
    by (repeat (apply Forall_cons; [reflexivity|]); apply Forall_nil).
  split; [exact H|].
  exact (proj1 (sequence_tracking clock0 env0 (packet_with_seq x0a)
                  [packet_with_seq x0b] (packet_with_seq x0c) H)).
Defined.

Lemma stats_emission_schedule_witness :
  Forall (fun q => length q = 52%nat)
         [packet_with_seq x07; packet_with_seq x08] /\
  exists w' env' outs,
    observe_all clock0 [packet_with_seq x07; packet_with_seq x08]
                BLEWorker_init env0 = Some (w', env', outs) /\
    received w' = 1 /\
    length outs = 2%nat /\
    forall i, (i < 2)%nat ->
              (nth i outs None <> None <-> Z.of_nat i mod 50 = 0).
Proof.
  assert (H : Forall (fun q => length q = 52%nat)
                     [packet_with_seq x07; packet_with_seq x08])
    by (repeat (apply Forall_cons; [reflexivity|]); apply Forall_nil).
  split; [exact H|].
  exact (proj2 (stats_emission_schedule clock0 env0 (packet_with_seq x07)
                  [packet_with_seq x08] H)).
Defined.

Lemma loss_percentage_witness :
  process_packet clock0 (packet_with_seq x0a)
                 (mkBLEWorker [] 9 99 49 (clock0 0)) (mkEnv [] 1)
  = Some (mkBLEWorker [] 10 100 50 (clock0 0),
          mkEnv [repeat 0%float 8; repeat 0%float 8] 2,
          Some (50%float, 100%float)) /\
  Z.abs 100 < 2 ^ 52 /\
  Z.abs 50 < 2 ^ 52 /\
  50%float = (float_of_int (100 - 50) / float_of_int 100 * float_of_int 100)%float.
Proof.
  assert (H : process_packet clock0 (packet_with_seq x0a)
                (mkBLEWorker [] 9 99 49 (clock0 0)) (mkEnv [] 1)
              = Some (mkBLEWorker [] 10 100 50 (clock0 0),
                      mkEnv [repeat 0%float 8; repeat 0%float 8] 2,
                      Some (50%float, 100%float)))
    by (vm_compute; reflexivity).
  assert (He : Z.abs 100 < 2 ^ 52) by reflexivity.
  assert (Hr : Z.abs 50 < 2 ^ 52) by reflexivity.
  split; [exact H|]. split; [exact He|]. split; [exact Hr|].
  exact (proj1 (proj2 (loss_percentage clock0 _ _ _ _ _ _ _ H He Hr)) eq_refl).
Defined.

Lemma resync_discards_garbage_witness :
  rx_buffer BLEWorker_init = [] /\
  Forall (fun b => byte_val b <> 0xA0) [x00; x01] /\
  length (packet_with_seq x05) = 52%nat /\
  index (packet_with_seq x05) 0 = Some 0xA0 /\
  exists w' env' emitted,
    notification_handler clock0 ([x00; x01] ++ packet_with_seq x05)
                         BLEWorker_init env0
    = Some (w', env',
            map Discarded [x00; x01]
            ++ [Processed (packet_with_seq x05) emitted]) /\
    rx_buffer w' = [].
Proof.
  assert (H : Forall (fun b => byte_val b <> 0xA0) [x00; x01])
    by (repeat (apply Forall_cons; [discriminate|]); apply Forall_nil).
  split; [reflexivity|]. split; [exact H|].
  split; [reflexivity|]. split; [reflexivity|].
  exact (resync_discards_garbage clock0 [x00; x01] (packet_with_seq x05)
           BLEWorker_init env0 eq_refl H eq_refl eq_refl).
Defined.

Lemma sample_sink_overflow_witness :
  length vectors2505 = (MAXLEN + 5)%nat /\
  fold_left (Deque.append MAXLEN) vectors2505 [] = skipn 5 vectors2505 /\
  length (fold_left (Deque.append MAXLEN) vectors2505 []) = MAXLEN.
Proof.
  assert (H : length vectors2505 = (MAXLEN + 5)%nat)
    by (vm_compute; reflexivity).
  split; [exact H|].
  pose proof (sample_sink_overflow vectors2505 0 H) as (Hq & Hlen & _).
  split; [exact Hq | exact Hlen].
Defined.

Lemma repeated_seq_negative_loss_witness :
  length (packet_with_seq x06) = 52%nat /\
  index (packet_with_seq x06) 1 = Some (last_seq (mkBLEWorker [] 6 1 1 0%float)) /\
  exists w2 env2 e,
    process_packet clock0 (packet_with_seq x06)
                   (mkBLEWorker [] 6 1 1 0%float) env0 = Some (w2, env2, e) /\
    expected w2 = 1 /\
    received w2 = 1 + 1.
Proof.
  split; [reflexivity|]. split; [reflexivity|].
  exact (proj1 (repeated_seq_negative_loss clock0 (packet_with_seq x06)
                  (mkBLEWorker [] 6 1 1 0%float) env0 eq_refl eq_refl)).
Defined.

(** * Further properties of the code *)

(** ** The handler: where the bytes go *)

Lemma scan_bytes (fuel : nat) (buf : list byte) :
  flat_map slide_bytes (fst (scan fuel buf)) ++ snd (scan fuel buf) = buf.
Proof.
  revert buf. induction fuel as [|fuel IH]; intros buf; [reflexivity|].
  cbn [scan]. destruct (52 <=? length buf)%nat; [|reflexivity].
  destruct buf as [|b0 rest]; [reflexivity|].
  destruct (negb (byte_val b0 =? 0xA0)).
  - specialize (IH rest). destruct (scan fuel rest) as [sl r].
    cbn [fst snd flat_map slide_bytes app] in *. now rewrite IH.
  - specialize (IH (skipn 52 (b0 :: rest))).
    destruct (scan fuel (skipn 52 (b0 :: rest))) as [sl r].
    cbn [fst snd flat_map slide_bytes] in *.
    rewrite <- app_assoc, IH. apply firstn_skipn.
Qed.

Lemma scan_slides (fuel : nat) (buf : list byte) :
  Forall (fun sl => match sl with
                    | Pop b => byte_val b <> 0xA0
                    | Cut p => length p = 52%nat /\ index p 0 = Some 0xA0
                    end)
         (fst (scan fuel buf)).
Proof.
  revert buf. induction fuel as [|fuel IH]; intros buf; [constructor|].
  cbn [scan]. destruct (Nat.leb_spec 52 (length buf)) as [Hge|Hlt];
    [|constructor].
  destruct buf as [|b0 rest]; [constructor|].
  destruct (Z.eqb_spec (byte_val b0) 0xA0) as [E|E]; cbn [negb].
  - specialize (IH (skipn 52 (b0 :: rest))).
    destruct (scan fuel (skipn 52 (b0 :: rest))) as [sl r].
    cbn [fst] in *. constructor; [|exact IH]. split.
    + rewrite length_firstn. lia.
    + unfold index. cbn [firstn nth_error option_map]. now rewrite E.
  - specialize (IH rest). destruct (scan fuel rest) as [sl r].
    cbn [fst] in *. constructor; assumption.
Qed.

Lemma bytes_of_slides (evs : list Event) :
  flat_map bytes_of evs = flat_map slide_bytes (map slide_of evs).
Proof.
  induction evs as [|[b|p e] evs IH]; cbn [flat_map map slide_of]; 
    [reflexivity | |]; now rewrite IH.
Qed.

(** X1.  A notification loses, repeats and reorders nothing: the bytes
    it popped and the packets it cut, laid end to end in the order of
    the run and followed by what stays in the accumulator, are the old
    accumulator followed by the chunk. *)
Theorem handler_conserves_bytes (time_time : nat -> float)
        (data : list byte) (w : BLEWorker) (env : Env) :
  exists w' env' evs,
    notification_handler time_time data w env = Some (w', env', evs) /\
    flat_map bytes_of evs ++ rx_buffer w' = rx_buffer w ++ data.
Proof.
  destruct (notification_handler_sync time_time data w env)
    as (w' & env' & evs & Hrun & Hsl & Hb).
  exists w', env', evs. split; [exact Hrun|].
  rewrite bytes_of_slides, Hsl, Hb. apply scan_bytes.
Qed.

(** X2.  Whatever the accumulator and the chunk hold, a run of the
    handler only ever pops a byte that is not 0xA0, and only ever hands
    [process_packet] a packet of exactly 52 bytes whose first byte is
    0xA0. *)
Theorem handler_events_well_formed (time_time : nat -> float)
        (data : list byte) (w : BLEWorker) (env : Env) :
  exists w' env' evs,
    notification_handler time_time data w env = Some (w', env', evs) /\
    Forall (fun ev => match ev with
                      | Discarded b => byte_val b <> 0xA0
                      | Processed p _ =>
                        length p = 52%nat /\ index p 0 = Some 0xA0
                      end) evs.
Proof.
  destruct (notification_handler_sync time_time data w env)
    as (w' & env' & evs & Hrun & Hsl & _).
  exists w', env', evs. split; [exact Hrun|].
  pose proof (scan_slides (length (rx_buffer w ++ data)) (rx_buffer w ++ data))
    as Hok.
  unfold sync in Hsl. rewrite <- Hsl in Hok. clear Hsl Hrun.
  induction evs as [|[b|p e] evs IH]; [constructor| |];
    cbn [map slide_of] in Hok; apply Forall_cons_iff in Hok;
    destruct Hok as [H1 H2]; constructor; auto.
Qed.

(** ** The handler on an aligned stream *)

Lemma scan_frames (frames : list (list byte)) (tail : list byte) (fuel : nat) :
  Forall (fun p => length p = 52%nat /\ index p 0 = Some 0xA0) frames ->
  (length tail < 52)%nat ->
  (length (concat frames ++ tail) <= fuel)%nat ->
  scan fuel (concat frames ++ tail) = (map Cut frames, tail).
Proof.
  intros Hall Htail. revert fuel.
  induction Hall as [|p frames [Hlen Hmark] Hall IH]; intros fuel Hf.
  - cbn [concat app map]. apply scan_short. exact Htail.
  - cbn [concat map] in *. rewrite <- app_assoc in *.
    rewrite length_app, Hlen in Hf.
    destruct fuel as [|fuel]; [lia|].
    destruct p as [|b0 p']; [discriminate|].
    unfold index in Hmark. cbn [nth_error option_map] in Hmark.
    injection Hmark as Hmark.
    cbn [scan app length].
    destruct (Nat.leb_spec 52 (S (length (p' ++ concat frames ++ tail))))
      as [_|Hlt]; [|cbn [length] in Hlen; rewrite length_app in Hlt; lia].
    rewrite Hmark. cbn [Z.eqb Pos.eqb negb].
    change (b0 :: p' ++ concat frames ++ tail)
      with ((b0 :: p') ++ concat frames ++ tail).
    rewrite firstn_app, skipn_app, Hlen, Nat.sub_diag, firstn_O, skipn_O.
    rewrite firstn_all2, skipn_all2, app_nil_r by lia. cbn [app].
    rewrite IH by lia. reflexivity.
Qed.

Lemma cuts_of_Cut (frames : list (list byte)) :
  cuts_of (map Cut frames) = frames.
Proof.
  induction frames as [|p frames IH]; cbn [map cuts_of];
    [reflexivity | now rewrite IH].
Qed.

(** X3.  When the bytes already in the accumulator followed by the
    chunk make up any number of whole frames back to back (each 52
    bytes, each starting with 0xA0) and fewer than 52 further bytes, the
    handler processes exactly those frames, in order, pops nothing, and
    keeps the further bytes in the accumulator for the next
    notification; a frame that arrived in pieces is processed once its
    last byte is in.  With no whole frame yet, the chunk is only
    buffered. *)
Theorem aligned_frames_all_processed (time_time : nat -> float)
        (frames : list (list byte)) (data tail : list byte)
        (w : BLEWorker) (env : Env) :
  rx_buffer w ++ data = concat frames ++ tail ->
  Forall (fun p => length p = 52%nat /\ index p 0 = Some 0xA0) frames ->
  (length tail < 52)%nat ->
  exists w' env' evs,
    notification_handler time_time data w env = Some (w', env', evs) /\
    frames_of evs = frames /\
    length evs = length frames /\
    rx_buffer w' = tail.
Proof.
  intros Hbytes Hall Htail.
  destruct (notification_handler_sync time_time data w env)
    as (w' & env' & evs & Hrun & Hsl & Hb).
  rewrite Hbytes in Hsl, Hb. unfold sync in Hsl, Hb.
  rewrite (scan_frames frames tail) in Hsl, Hb
    by (assumption || apply Nat.le_refl).
  cbn [fst snd] in Hsl, Hb.
  exists w', env', evs. split; [exact Hrun|]. split; [|split].
  - rewrite frames_of_slides, Hsl. apply cuts_of_Cut.
  - rewrite <- (length_map slide_of), Hsl. apply length_map.
  - exact Hb.
Qed.

(** ** The handler: chunk boundaries and the whole state *)

Section Chunks.
Variable time_time : nat -> float.

Lemma set_rx_buffer_id (w : BLEWorker) : set_rx_buffer (rx_buffer w) w = w.
Proof. destruct w. reflexivity. Qed.

Lemma track_seq_set_rx_buffer (s : Z) (b : list byte) (w : BLEWorker) :
  track_seq s (set_rx_buffer b w) = set_rx_buffer b (track_seq s w).
Proof.
  unfold track_seq, set_rx_buffer.
  cbn [rx_buffer last_seq expected received start_t].
  destruct (negb (last_seq w =? -1)); reflexivity.
Qed.

Lemma stats_tick_set_rx_buffer (b : list byte) (w : BLEWorker) (t : nat) :
  stats_tick time_time (set_rx_buffer b w) t =
  match stats_tick time_time w t with
  | Some (w1, t1, e) => Some (set_rx_buffer b w1, t1, e)
  | None => None
  end.
Proof.
  destruct w as [rx ls ex rc st]. unfold stats_tick, loss_pct, set_rx_buffer.
  cbn [rx_buffer last_seq expected received start_t].
  destruct (rc mod 50 =? 0); [|reflexivity].
  destruct (0 <? ex); [destruct (int_truediv (ex - rc) ex)|];
    cbn [bind]; try reflexivity;
    (destruct (st =? 0)%float;
     cbn [rx_buffer last_seq expected received start_t];
     match goal with
     | |- context [if ?c then _ else _] => destruct c
     end; cbn [bind]; try reflexivity;
     match goal with
     | |- context [float_truediv ?x ?y] => destruct (float_truediv x y)
     end; reflexivity).
Qed.

(** [process_packet] carries the accumulator through untouched. *)
Lemma process_packet_set_rx_buffer (p b : list byte) (w : BLEWorker)
      (env : Env) :
  process_packet time_time p (set_rx_buffer b w) env =
  match process_packet time_time p w env with
  | Some (w1, env1, e) => Some (set_rx_buffer b w1, env1, e)
  | None => None
  end.
Proof.
  unfold process_packet.
  destruct (index p 1) as [s|]; [|reflexivity]. cbn [bind].
  rewrite track_seq_set_rx_buffer, stats_tick_set_rx_buffer.
  destruct (stats_tick time_time (track_seq s w) (time_calls env))
    as [[[w1 t1] e]|]; [|reflexivity].
  cbn [bind].
  destruct (decode_frames p) as [frames|]; [|reflexivity]. cbn [bind].
  destruct (nth_error frames 0); [|reflexivity]. cbn [bind].
  destruct (nth_error frames 1); reflexivity.
Qed.

(** Running the loop on the accumulator with a chunk behind it is
    running it on the accumulator alone and then delivering the
    chunk. *)
Lemma handler_loop_app (f f' : nat) (c : list byte) (w : BLEWorker)
      (env : Env) :
  (length (rx_buffer w) <= f)%nat ->
  (length (rx_buffer w ++ c) <= f')%nat ->
  handler_loop time_time f' (set_rx_buffer (rx_buffer w ++ c) w) env =
  ' (w1, env1, evs1) <- handler_loop time_time f w env ;;
  ' (w2, env2, evs2) <- notification_handler time_time c w1 env1 ;;
  Some (w2, env2, evs1 ++ evs2).
Proof.
  revert f' w env. induction f as [|f IH]; intros f' w env Hf Hf'.
  - cbn [handler_loop bind]. unfold notification_handler.
    rewrite (handler_loop_fuel time_time f'
               (length (rx_buffer (set_rx_buffer (rx_buffer w ++ c) w))))
      by (cbn [set_rx_buffer rx_buffer]; lia).
    destruct (handler_loop time_time _ _ env) as [[[w2 env2] evs2]|];
      reflexivity.
  - destruct (Nat.leb_spec 52 (length (rx_buffer w))) as [Hge|Hlt].
    2:{ cbn [handler_loop].
        destruct (Nat.leb_spec 52 (length (rx_buffer w))); [lia|].
        cbn [bind]. unfold notification_handler.
        rewrite (handler_loop_fuel time_time f'
                   (length (rx_buffer (set_rx_buffer (rx_buffer w ++ c) w))))
          by (cbn [set_rx_buffer rx_buffer]; lia).
        destruct (handler_loop time_time _ _ env) as [[[w2 env2] evs2]|];
          reflexivity. }
    destruct f' as [|f']; [rewrite length_app in Hf'; lia|].
    cbn [handler_loop]. cbn [set_rx_buffer rx_buffer].
    destruct (rx_buffer w) as [|b0 rest] eqn:Eb; [cbn [length] in Hge; lia|].
    rewrite length_app in Hf'. cbn [length] in Hf, Hf', Hge.
    destruct (Nat.leb_spec 52 (length ((b0 :: rest) ++ c))) as [_|Hlt];
      [|rewrite length_app in Hlt; cbn [length] in Hlt; lia].
    destruct (Nat.leb_spec 52 (length (b0 :: rest))) as [_|Hlt];
      [|cbn [length] in Hlt; lia].
    cbn [app nth_error bind].
    destruct (negb (byte_val b0 =? 0xA0)).
    + change (set_rx_buffer (skipn 1 (b0 :: rest ++ c))
                            (set_rx_buffer (b0 :: rest ++ c) w))
        with (set_rx_buffer (rx_buffer (set_rx_buffer rest w) ++ c)
                            (set_rx_buffer rest w)).
      change (skipn 1 (b0 :: rest)) with rest.
      rewrite (IH f' (set_rx_buffer rest w) env)
        by (unfold set_rx_buffer; cbn [rx_buffer]; rewrite ?length_app; lia).
      destruct (handler_loop time_time f (set_rx_buffer rest w) env)
        as [[[w1 env1] evs1]|]; [|reflexivity].
      cbn [bind].
      destruct (notification_handler time_time c w1 env1)
        as [[[w2 env2] evs2]|]; reflexivity.
    + change (b0 :: rest ++ c) with ((b0 :: rest) ++ c).
      rewrite firstn_app, skipn_app.
      replace (52 - length (b0 :: rest))%nat with 0%nat
        by (cbn [length]; lia).
      rewrite firstn_O, skipn_O, app_nil_r.
      set (buf := b0 :: rest) in *.
      change (set_rx_buffer (skipn 52 buf ++ c) (set_rx_buffer (buf ++ c) w))
        with (set_rx_buffer (skipn 52 buf ++ c) w).
      rewrite !(process_packet_set_rx_buffer (firstn 52 buf)).
      destruct (process_packet time_time (firstn 52 buf) w env)
        as [[[w1 env1] e]|]; [|reflexivity].
      cbn [bind].
      change (set_rx_buffer (skipn 52 buf ++ c) w1)
        with (set_rx_buffer
                (rx_buffer (set_rx_buffer (skipn 52 buf) w1) ++ c)
                (set_rx_buffer (skipn 52 buf) w1)).
      rewrite (IH f' (set_rx_buffer (skipn 52 buf) w1) env1)
        by (unfold set_rx_buffer; cbn [rx_buffer];
            rewrite ?length_app, length_skipn; unfold buf; cbn [length]; lia).
      destruct (handler_loop time_time f (set_rx_buffer (skipn 52 buf) w1) env1)
        as [[[w1' env1'] evs1]|]; [|reflexivity].
      cbn [bind].
      destruct (notification_handler time_time c w1' env1')
        as [[[w2 env2] evs2]|]; reflexivity.
Qed.

End Chunks.

(** X4.  With the same clock readings, delivering a byte stream in any
    chunks to a worker at rest (fewer than 52 bytes buffered) gives, in
    every respect, what delivering it in one notification gives: the
    same worker (accumulator, [last_seq], [expected], [received],
    [start_t]), the same deque of samples, the same clock position and
    the same trace of pops, packets and emitted statistics. *)
Theorem chunking_preserves_whole_state (time_time : nat -> float)
        (chunks : list (list byte)) (w : BLEWorker) (env : Env) :
  (length (rx_buffer w) < 52)%nat ->
  feed time_time chunks w env
  = notification_handler time_time (concat chunks) w env.
Proof.
  revert w env. induction chunks as [|c chunks IH]; intros w env Hrest.
  - cbn [feed concat]. unfold notification_handler.
    rewrite app_nil_r, set_rx_buffer_id.
    destruct (rx_buffer w) as [|b rest] eqn:Eb; [reflexivity|].
    cbn [length handler_loop]. rewrite Eb.
    destruct (Nat.leb_spec 52 (length (b :: rest))); [lia | reflexivity].
  - cbn [feed concat].
    unfold notification_handler at 2. rewrite app_assoc.
    change (set_rx_buffer ((rx_buffer w ++ c) ++ concat chunks) w)
      with (set_rx_buffer
              (rx_buffer (set_rx_buffer (rx_buffer w ++ c) w) ++ concat chunks)
              (set_rx_buffer (rx_buffer w ++ c) w)).
    rewrite (handler_loop_app time_time
               (length (rx_buffer (set_rx_buffer (rx_buffer w ++ c) w))))
      by (unfold set_rx_buffer; cbn [rx_buffer]; lia).
    change (handler_loop time_time
              (length (rx_buffer (set_rx_buffer (rx_buffer w ++ c) w)))
              (set_rx_buffer (rx_buffer w ++ c) w) env)
      with (notification_handler time_time c w env).
    destruct (notification_handler_sync time_time c w env)
      as (w1 & env1 & evs1 & Hrun & _ & Hb).
    rewrite Hrun. cbn [bind].
    rewrite IH by (rewrite Hb; apply sync_rest).
    reflexivity.
Qed.

Lemma chunking_preserves_whole_state_witness :
  (length (rx_buffer BLEWorker_init) < 52)%nat /\
  feed clock0 chunks3 BLEWorker_init env0
  = notification_handler clock0 (concat chunks3) BLEWorker_init env0.
Proof.
  assert (H : (length (rx_buffer BLEWorker_init) < 52)%nat)
    by (cbn [BLEWorker_init rx_buffer length]; lia).
  split; [exact H|].
  exact (chunking_preserves_whole_state clock0 chunks3 BLEWorker_init env0 H).
Defined.

(** ** The tracker over a whole run *)

Lemma mapM_index_range (packets : list (list byte)) (ss : list Z) :
  mapM (fun p => index p 1) packets = Some ss ->
  Forall (fun s => 0 <= s < 256) ss /\ length ss = length packets.
Proof.
  revert ss. induction packets as [|p packets IH]; intros ss H.
  - injection H as <-. split; [constructor | reflexivity].
  - cbn [mapM] in H. unfold index at 1 in H.
    destruct (nth_error p 1) as [b|]; [|discriminate].
    cbn [option_map bind] in H.
    destruct (mapM (fun p => index p 1) packets) as [ss'|]; [|discriminate].
    cbn [bind] in H. injection H as <-.
    destruct (IH ss' eq_refl) as [Hr Hl]. split.
    + constructor; [apply byte_val_range | exact Hr].
    + cbn [length]. now rewrite Hl.
Qed.

(** From a state that has seen a packet: what any run does to the
    counters. *)
Lemma track_bounds (ss : list Z) (w : BLEWorker) :
  0 <= last_seq w < 256 ->
  Forall (fun s => 0 <= s < 256) ss ->
  let w' := fold_left (fun a s => track_seq s a) ss w in
  0 <= last_seq w' < 256 /\
  received w' = received w + Z.of_nat (length ss) /\
  expected w <= expected w' <= expected w + 255 * Z.of_nat (length ss) /\
  (expected w' - expected w) mod 256 = (last_seq w' - last_seq w) mod 256.
Proof.
  intros Hw Hss. revert w Hw.
  induction Hss as [|s ss Hs Hss IH]; intros w Hw.
  - cbn [fold_left length Z.of_nat]. repeat split; try lia.
    now rewrite !Z.sub_diag.
  - cbn [fold_left]. specialize (IH (track_seq s w)).
    rewrite track_seq_next in IH by lia.
    cbn [last_seq expected received] in IH.
    rewrite track_seq_next by lia.
    set (d := (s - last_seq w) mod 256) in *.
    assert (Hd : 0 <= d < 256) by (apply Z.mod_pos_bound; lia).
    set (w' := fold_left _ ss _) in *.
    destruct (IH Hs) as (Hl & Hr & He & Hm).
    cbn [length]. repeat split; try lia.
    replace (expected w' - expected w)
      with ((expected w' - (expected w + d)) + d) by lia.
    replace (last_seq w' - last_seq w)
      with ((last_seq w' - s) + (s - last_seq w)) by lia.
    rewrite (Z.add_mod (expected w' - (expected w + d))) by lia.
    rewrite (Z.add_mod (last_seq w' - s)) by lia.
    rewrite Hm. unfold d. rewrite Z.mod_mod by lia. reflexivity.
Qed.

(** From a state that has seen a packet: a run whose numbers advance
    by known gaps adds the gaps to [expected]. *)
Lemma track_gaps (gaps : list Z) (w : BLEWorker) :
  0 <= last_seq w < 256 ->
  Forall (fun g => 0 <= g < 256) gaps ->
  let w' := fold_left (fun a s => track_seq s a)
                      (seqs_after (last_seq w) gaps) w in
  expected w' = expected w + fold_right Z.add 0 gaps /\
  received w' = received w + Z.of_nat (length gaps).
Proof.
  intros Hw Hg. revert w Hw.
  induction Hg as [|g gaps Hg0 Hg IH]; intros w Hw.
  - cbn [seqs_after fold_left fold_right length Z.of_nat]. lia.
  - cbn [seqs_after fold_left].
    assert (Hs : 0 <= (last_seq w + g) mod 256 < 256)
      by (apply Z.mod_pos_bound; lia).
    specialize (IH (track_seq ((last_seq w + g) mod 256) w) Hs).
    cbv zeta in IH. rewrite track_seq_last_seq in IH.
    destruct IH as [He Hr]. rewrite He, Hr.
    rewrite track_seq_next by lia. cbn [expected received].
    rewrite Zminus_mod_idemp_l.
    replace (last_seq w + g - last_seq w) with g by lia.
    rewrite Z.mod_small by lia.
    cbn [fold_right length]. lia.
Qed.

(** X5.  The tracker counts losses exactly as long as no gap reaches
    256: from a fresh worker, when each packet's sequence number is
    ahead of the previous packet's by [g] modulo 256, with [g] between
    0 and 255 (1 when nothing was lost in between), [expected] ends as
    the sum of the gaps and [received] as their number.  For a complete
    stream, all gaps 1, the two are equal, however often the counter
    wraps. *)
Theorem gaps_are_counted (time_time : nat -> float) (env : Env)
        (packets : list (list byte)) (s0 : Z) (gaps : list Z) :
  Forall (fun q => length q = 52%nat) packets ->
  mapM (fun p => index p 1) packets = Some (seqs_from s0 gaps) ->
  Forall (fun g => 0 <= g < 256) gaps ->
  exists w' env' outs,
    observe_all time_time packets BLEWorker_init env = Some (w', env', outs) /\
    expected w' = fold_right Z.add 0 gaps /\
    received w' = Z.of_nat (length gaps) /\
    (Forall (fun g => g = 1) gaps -> expected w' = received w').
Proof.
  intros Hall Hss Hg.
  destruct (counters_from_init time_time packets _ env Hall Hss)
    as (w' & env' & outs & Hrun & _ & He & Hr).
  destruct (mapM_index_range packets _ Hss) as [Hrange _].
  unfold seqs_from in He, Hr, Hrange.
  apply Forall_cons_iff in Hrange. destruct Hrange as [Hs0 _].
  cbn [fold_left] in He, Hr.
  rewrite track_seq_first in He, Hr by reflexivity.
  pose proof (track_gaps gaps
                (mkBLEWorker (rx_buffer BLEWorker_init) s0
                             (expected BLEWorker_init)
                             (received BLEWorker_init)
                             (start_t BLEWorker_init)) Hs0 Hg) as Hgaps.
  cbv zeta in Hgaps. cbn [last_seq] in Hgaps.
  destruct Hgaps as [He' Hr'].
  set (W := fold_left _ (seqs_after s0 gaps) _) in *.
  cbn [expected received BLEWorker_init] in He', Hr'.
  assert (HE : expected w' = fold_right Z.add 0 gaps)
    by (rewrite He, He'; lia).
  assert (HR : received w' = Z.of_nat (length gaps))
    by (rewrite Hr, Hr'; lia).
  exists w', env', outs. repeat split; try assumption.
  intros Hones. rewrite HE, HR. clear -Hones.
  induction Hones as [|g gaps -> _ IH]; [reflexivity|].
  cbn [fold_right length]. rewrite IH. lia.
Qed.

(** X6.  From a fresh worker, after any non-empty run of packets:
    [received] is the number of packets after the first; [expected]
    lies between 0 and 255 times [received]; and [expected] is
    congruent modulo 256 to the distance from the first sequence
    number to the last. *)
Theorem tracker_invariants (time_time : nat -> float) (env : Env)
        (p0 : list byte) (ps : list (list byte)) (s0 : Z) :
  Forall (fun q => length q = 52%nat) (p0 :: ps) ->
  index p0 1 = Some s0 ->
  exists w' env' outs,
    observe_all time_time (p0 :: ps) BLEWorker_init env
    = Some (w', env', outs) /\
    received w' = Z.of_nat (length ps) /\
    0 <= expected w' <= 255 * received w' /\
    expected w' mod 256 = (last_seq w' - s0) mod 256.
Proof.
  intros Hall Hs0.
  destruct (observe_all_counters time_time (p0 :: ps) BLEWorker_init
              BLEWorker_init env Hall) as (w' & env' & outs & ss & Hrun & Hss & Hl & He & Hr).
  { repeat split. }
  exists w', env', outs. split; [exact Hrun|].
  destruct (mapM_index_range _ _ Hss) as [Hrange Hlen].
  cbn [mapM] in Hss. rewrite Hs0 in Hss. cbn [bind] in Hss.
  destruct (mapM (fun p => index p 1) ps) as [ss'|]; [|discriminate].
  cbn [bind] in Hss. injection Hss as <-.
  apply Forall_cons_iff in Hrange. destruct Hrange as [Hr0 Hrange].
  cbn [length] in Hlen. injection Hlen as Hlen.
  cbn [fold_left] in Hl, He, Hr.
  rewrite track_seq_first in Hl, He, Hr by reflexivity.
  pose proof (track_bounds ss'
                (mkBLEWorker (rx_buffer BLEWorker_init) s0
                             (expected BLEWorker_init)
                             (received BLEWorker_init)
                             (start_t BLEWorker_init)) Hr0 Hrange)
    as (_ & Hr' & He' & Hm).
  cbv zeta in Hr', He', Hm.
  set (W := fold_left _ ss' _) in *.
  cbn [last_seq expected received BLEWorker_init] in Hr', He', Hm.
  rewrite Hl, He, Hr, Hr', <- Hlen.
  rewrite Z.sub_0_r in Hm.
  repeat split; try lia; exact Hm.
Qed.

(** ** Decoding: range and inputs *)

Lemma be24_value (a b c : Z) :
  0 <= a < 256 -> 0 <= b < 256 -> 0 <= c < 256 ->
  Z.lor (Z.lor (Z.shiftl a 16) (Z.shiftl b 8)) c = a * 65536 + b * 256 + c.
Proof.
  intros Ha Hb Hc.
  remember (a * 65536 + b * 256 + c) as u eqn:Eu.
  assert (Hu : 0 <= u < 2 ^ 24) by lia.
  assert (Ea : a = Z.shiftr u 16 mod 256).
  { rewrite Z.shiftr_div_pow2 by lia. change (2 ^ 16) with 65536.
    Z.div_mod_to_equations. lia. }
  assert (Eb : b = Z.shiftr u 8 mod 256).
  { rewrite Z.shiftr_div_pow2 by lia. change (2 ^ 8) with 256.
    Z.div_mod_to_equations. lia. }
  assert (Ec : c = u mod 256) by (Z.div_mod_to_equations; lia).
  rewrite Ea, Eb, Ec. apply be24_bytes. exact Hu.
Qed.

Lemma testbit_23 (u : Z) :
  0 <= u < 2 ^ 24 -> Z.testbit u 23 = (2 ^ 23 <=? u).
Proof.
  intros Hu. pose proof (Z.testbit_spec' u 23 ltac:(lia)) as H.
  change (2 ^ 23) with 8388608 in *. change (2 ^ 24) with 16777216 in *.
  destruct (Z.leb_spec 8388608 u); destruct (Z.testbit u 23);
    cbn [Z.b2z] in H; try reflexivity;
    exfalso; Z.div_mod_to_equations; lia.
Qed.

(** X7.  Whatever three bytes a channel field holds, the value decoded
    from it is [val * SCALE_FACTOR] for an integer [val] between -2^23
    and 2^23 - 1 that is congruent modulo 2^24 to the field read as a
    big-endian unsigned number: the 24-bit two's complement reading. *)
Theorem decode_channel_twos_complement (data : list byte) (idx : nat)
        (v : float) :
  decode_channel data idx = Some v ->
  exists b0 b1 b2 val,
    nth_error data idx = Some b0 /\
    nth_error data (idx + 1) = Some b1 /\
    nth_error data (idx + 2) = Some b2 /\
    - 2 ^ 23 <= val < 2 ^ 23 /\
    val mod 2 ^ 24
    = byte_val b0 * 65536 + byte_val b1 * 256 + byte_val b2 /\
    v = (float_of_int val * SCALE_FACTOR)%float.
Proof.
  unfold decode_channel, index. intros H.
  destruct (nth_error data idx) as [b0|]; [|discriminate].
  destruct (nth_error data (idx + 1)) as [b1|]; [|discriminate].
  destruct (nth_error data (idx + 2)) as [b2|]; [|discriminate].
  cbn [option_map bind] in H.
  apply (f_equal (fun o => match o with Some x => x | None => v end)) in H.
  cbv beta iota zeta in H. subst v.
  pose proof (byte_val_range b0) as H0.
  pose proof (byte_val_range b1) as H1.
  pose proof (byte_val_range b2) as H2.
  rewrite be24_value, sign_bit_test by assumption.
  set (u := byte_val b0 * 65536 + byte_val b1 * 256 + byte_val b2).
  assert (Hu : 0 <= u < 2 ^ 24) by (unfold u; lia).
  rewrite testbit_23 by exact Hu.
  exists b0, b1, b2, (if 2 ^ 23 <=? u then u - 0x1000000 else u).
  repeat split; try reflexivity;
    change 0x1000000 with (2 ^ 24);
    destruct (Z.leb_spec (2 ^ 23) u); try lia.
  - replace (u - 2 ^ 24) with (u + (-1) * 2 ^ 24) by lia.
    rewrite Z.mod_add by lia. apply Z.mod_small. lia.
  - apply Z.mod_small. lia.
Qed.

Lemma mapM_ext {A B : Type} (f g : A -> option B) (l : list A) :
  (forall a, In a l -> f a = g a) -> mapM f l = mapM g l.
Proof.
  induction l as [|a l IH]; intros H; [reflexivity|].
  cbn [mapM]. rewrite (H a (or_introl eq_refl)), IH; [reflexivity|].
  intros a' Ha'. apply H. now right.
Qed.

(** X8.  [process_packet] reads bytes 1 to 49 of the packet and nothing
    else: two packets that agree there, whatever their marker byte,
    their reserved bytes 50 and 51 and their lengths, have the same
    effect and the same result. *)
Theorem process_packet_reads_bytes_1_to_49 (time_time : nat -> float)
        (p q : list byte) (w : BLEWorker) (env : Env) :
  (forall i, (1 <= i < 50)%nat -> nth_error p i = nth_error q i) ->
  process_packet time_time p w env = process_packet time_time q w env.
Proof.
  intros Hagree.
  assert (Hidx : forall i, (1 <= i < 50)%nat -> index p i = index q i)
    by (intros i Hi; unfold index; now rewrite Hagree).
  assert (Hdec : decode_frames p = decode_frames q).
  { unfold decode_frames. apply mapM_ext. intros o Ho.
    unfold decode_frame. apply mapM_ext. intros i Hi.
    apply in_seq in Hi. unfold decode_channel.
    assert (Ho' : o = 2%nat \/ o = 26%nat)
      by (destruct Ho as [<-|[<-|[]]]; auto).
    rewrite !Hidx by lia. reflexivity. }
  unfold process_packet. rewrite Hdec, (Hidx 1%nat) by lia. reflexivity.
Qed.

(** ** From packets to the sample queue *)

Lemma mapM_length {A B : Type} (f : A -> option B) (l : list A) (bs : list B) :
  mapM f l = Some bs -> length bs = length l.
Proof.
  revert bs. induction l as [|a l IH]; intros bs H.
  - injection H as <-. reflexivity.
  - cbn [mapM] in H. destruct (f a); [|discriminate]. cbn [bind] in H.
    destruct (mapM f l) as [bs'|]; [|discriminate]. cbn [bind] in H.
    injection H as <-. cbn [length]. now rewrite (IH bs' eq_refl).
Qed.

Lemma decode_frames_shape (data : list byte) (frames : list SampleVector) :
  decode_frames data = Some frames ->
  length frames = 2%nat /\ Forall (fun v => length v = 8%nat) frames.
Proof.
  unfold decode_frames. cbn [mapM]. intros H.
  destruct (decode_frame data 2) as [fA|] eqn:EA; [|discriminate].
  destruct (decode_frame data 26) as [fB|] eqn:EB; [|discriminate].
  cbn [bind] in H. injection H as <-.
  apply mapM_length in EA. apply mapM_length in EB.
  rewrite length_seq in EA, EB.
  split; [reflexivity | repeat constructor; assumption].
Qed.

Lemma Forall_skipn_suffix {A : Type} (P : A -> Prop) (n : nat) (l : list A) :
  Forall P l -> Forall P (skipn n l).
Proof.
  revert l. induction n as [|n IH]; intros l H; [exact H|].
  destruct l as [|a l]; [constructor|].
  cbn [skipn]. apply IH. now apply Forall_cons_iff in H.
Qed.

Section Queue.
Variable time_time : nat -> float.

(** What [process_packet] does to the deque, whenever it returns. *)
Lemma process_packet_queue (p : list byte) (w w' : BLEWorker)
      (env env' : Env) (e : option Stats) :
  process_packet time_time p w env = Some (w', env', e) ->
  data_queue env'
  = fold_left (Deque.append MAXLEN) (vectors_of p) (data_queue env) /\
  length (vectors_of p) = 2%nat /\
  Forall (fun v => length v = 8%nat) (vectors_of p).
Proof.
  unfold process_packet, vectors_of. intros H.
  destruct (index p 1) as [s|]; [|discriminate]. cbn [bind] in H.
  destruct (stats_tick time_time (track_seq s w) (time_calls env))
    as [[[w1 t1] e1]|]; [|discriminate].
  cbn [bind] in H.
  destruct (decode_frames p) as [frames|] eqn:Hd; [|discriminate].
  destruct (decode_frames_shape p frames Hd) as [Hlen Hall].
  destruct frames as [|fA [|fB [|? ?]]]; try discriminate.
  cbn [bind nth_error] in H. injection H as _ <- _.
  repeat split; assumption.
Qed.

Lemma handler_loop_queue (fuel : nat) (w w' : BLEWorker) (env env' : Env)
      (evs : list Event) :
  handler_loop time_time fuel w env = Some (w', env', evs) ->
  data_queue env'
  = fold_left (Deque.append MAXLEN) (flat_map vectors_of (frames_of evs))
              (data_queue env) /\
  Forall (fun p => length (vectors_of p) = 2%nat /\
                   Forall (fun v => length v = 8%nat) (vectors_of p))
         (frames_of evs).
Proof.
  revert w env evs. induction fuel as [|fuel IH]; intros w env evs H.
  - injection H as <- <- <-. split; [reflexivity | constructor].
  - cbn [handler_loop] in H.
    remember (firstn 52 (rx_buffer w)) as pkt eqn:Epkt.
    destruct (52 <=? length (rx_buffer w))%nat.
    2:{ injection H as <- <- <-. split; [reflexivity | constructor]. }
    destruct (nth_error (rx_buffer w) 0) as [b0|]; [|discriminate].
    cbn [bind] in H.
    destruct (negb (byte_val b0 =? 0xA0)).
    + destruct (handler_loop time_time fuel _ env)
        as [[[w1 env1] evs1]|] eqn:Hrun; [|discriminate].
      cbn [bind] in H. injection H as <- <- <-.
      cbn [frames_of]. exact (IH _ _ _ Hrun).
    + destruct (process_packet time_time _ _ env)
        as [[[w1 env1] e]|] eqn:Hpp; [|discriminate].
      cbn [bind] in H.
      destruct (handler_loop time_time fuel w1 env1)
        as [[[w2 env2] evs2]|] eqn:Hrun; [|discriminate].
      cbn [bind] in H. injection H as <- <- <-.
      destruct (process_packet_queue _ _ _ _ _ _ Hpp) as (Hq & Hl & Hv).
      destruct (IH _ _ _ Hrun) as (Hq2 & Hall).
      cbn [frames_of flat_map]. rewrite fold_left_app, <- Hq, Hq2.
      split; [reflexivity|]. constructor; [split|]; assumption.
Qed.

End Queue.

Lemma flat_map_pairs (frames : list (list byte)) :
  Forall (fun p => length (vectors_of p) = 2%nat /\
                   Forall (fun v => length v = 8%nat) (vectors_of p)) frames ->
  length (flat_map vectors_of frames) = (2 * length frames)%nat /\
  Forall (fun v => length v = 8%nat) (flat_map vectors_of frames).
Proof.
  induction 1 as [|p frames [Hl Hv] _ [IHl IHv]]; [split; [reflexivity|constructor]|].
  cbn [flat_map length]. rewrite length_app, Hl, IHl. split; [lia|].
  apply Forall_app. split; assumption.
Qed.

(** X9.  After a notification the deque holds the last 2500 of: what it
    held before, followed by the two 8-value vectors of every packet the
    handler processed, sub-frame A before sub-frame B, packets in
    order.  It never grows beyond 2500 entries, and if every entry had
    8 values before, every entry has 8 values after. *)
Theorem handler_queues_decoded_vectors (time_time : nat -> float)
        (data : list byte) (w : BLEWorker) (env : Env) :
  (length (data_queue env) <= MAXLEN)%nat ->
  exists w' env' evs,
    notification_handler time_time data w env = Some (w', env', evs) /\
    let pushed := flat_map vectors_of (frames_of evs) in
    length pushed = (2 * length (frames_of evs))%nat /\
    data_queue env'
    = skipn (length (data_queue env ++ pushed) - MAXLEN)
            (data_queue env ++ pushed) /\
    (length (data_queue env') <= MAXLEN)%nat /\
    (Forall (fun v => length v = 8%nat) (data_queue env) ->
     Forall (fun v => length v = 8%nat) (data_queue env')).
Proof.
  intros Hcap.
  destruct (notification_handler_sync time_time data w env)
    as (w' & env' & evs & Hrun & _ & _).
  exists w', env', evs. split; [exact Hrun|].
  unfold notification_handler in Hrun.
  apply handler_loop_queue in Hrun. destruct Hrun as [Hq Hall].
  cbn [set_rx_buffer data_queue] in Hq.
  destruct (flat_map_pairs _ Hall) as [Hlen H8].
  assert (Hm : (0 < MAXLEN)%nat) by (unfold MAXLEN; lia).
  rewrite deque_append_all in Hq by assumption.
  cbv zeta. split; [exact Hlen|]. split; [exact Hq|]. split.
  - rewrite Hq, length_skipn. lia.
  - intros Hold. rewrite Hq. apply Forall_skipn_suffix.
    apply Forall_app. split; assumption.
Qed.

(** ** [update_plot]: the plot buffer *)

Lemma forallb_same_length (d0 : SampleVector) (data : list SampleVector) :
  Forall (fun v => length v = 8%nat) (d0 :: data) ->
  forallb (fun x => (length x =? length d0)%nat) (d0 :: data) = true.
Proof.
  intros H. apply forallb_forall. intros x Hx.
  pose proof (proj1 (Forall_forall _ _) H) as Hall.
  rewrite (Hall x Hx), (Hall d0 (or_introl eq_refl)). reflexivity.
Qed.

(** Rolling a row left by [n] and keeping all but its last [n] entries
    drops its first [n] entries. *)
Lemma roll_keep (W n : nat) (r : list float) :
  length r = W -> (n <= W)%nat ->
  firstn (W - n) (skipn (n mod length r) r ++ firstn (n mod length r) r)
  = skipn n r.
Proof.
  intros Hr Hn. rewrite Hr.
  destruct (Nat.eq_dec n W) as [->|Hne].
  - rewrite Nat.sub_diag, firstn_O, skipn_all2 by lia. reflexivity.
  - rewrite Nat.mod_small by lia.
    rewrite firstn_app, length_skipn, Hr, Nat.sub_diag, firstn_O, app_nil_r.
    apply firstn_all2. rewrite length_skipn. lia.
Qed.

Lemma roll_length (n : nat) (r : list float) :
  length (skipn (n mod length r) r ++ firstn (n mod length r) r) = length r.
Proof.
  rewrite length_app, length_skipn, length_firstn.
  destruct (Nat.eq_dec (length r) 0) as [E|E].
  - rewrite E. cbn. lia.
  - pose proof (Nat.mod_upper_bound n (length r) E). lia.
Qed.

Lemma np_array_same_width (data : list SampleVector) :
  Forall (fun v => length v = 8%nat) data -> Np.array data = Some data.
Proof.
  intros H. destruct data as [|d0 ds]; [reflexivity|].
  unfold Np.array. now rewrite forallb_same_length.
Qed.

(** The slice assignment when the shapes match. *)
Lemma assign_last_cols_fits (W n : nat) (r c : list float)
      (a v : list (list float)) :
  length (r :: a) = length (c :: v) ->
  length r = W -> length c = n -> (n <= W)%nat ->
  Np.assign_last_cols n (r :: a) (c :: v)
  = Some (map (fun rx => firstn (W - n) (fst rx) ++ snd rx)
              (combine (r :: a) (c :: v))).
Proof.
  intros Hrows Hr Hc Hn. unfold Np.assign_last_cols.
  rewrite <- Hrows, Nat.eqb_refl. cbn [bind Np.ncols].
  rewrite Hr, Hc, Nat.min_l, Nat.eqb_refl by exact Hn. reflexivity.
Qed.

(** The slice assignment when more columns come than the array has. *)
Lemma assign_last_cols_overflow (W n : nat) (r c : list float)
      (a v : list (list float)) :
  length r = W -> length c = n -> (W < n)%nat -> (1 < n)%nat ->
  Np.assign_last_cols n (r :: a) (c :: v) = None.
Proof.
  intros Hr Hc Hn H1. unfold Np.assign_last_cols. cbn [Np.ncols].
  rewrite Hr, Nat.min_r by lia.
  assert (E1 : (length c =? W)%nat = false) by (apply Nat.eqb_neq; lia).
  assert (E2 : (length c =? 1)%nat = false) by (apply Nat.eqb_neq; lia).
  destruct (length (c :: v) =? length (r :: a))%nat;
    [|destruct (length (c :: v) =? 1)%nat]; cbn [bind Np.ncols hd];
    rewrite ?E1, ?E2; reflexivity.
Qed.

Lemma update_plot_fits (W : nat) (env : Env) (buf : list (list float)) :
  data_queue env <> [] ->
  Forall (fun v => length v = 8%nat) (data_queue env) ->
  length buf = 8%nat ->
  Forall (fun r => length r = W) buf ->
  (length (data_queue env) <= W)%nat ->
  let buf' :=
    map (fun j => skipn (length (data_queue env)) (nth j buf [])
                  ++ map (fun v => nth j v 0%float) (data_queue env))
        (seq 0 8) in
  update_plot env buf = Some (mkEnv [] (time_calls env), buf', buf').
Proof.
  intros Hne Hwide Hrows Hcols Hn buf'. subst buf'.
  unfold update_plot, update_plot_drain. rewrite drain_loop_eq. cbn [app].
  destruct (data_queue env) as [|d0 ds] eqn:Eq; [contradiction|].
  pose proof (proj1 (Forall_forall _ _) Hwide d0 (or_introl eq_refl)) as Hd0.
  cbv beta in Hd0.
  rewrite np_array_same_width by exact Hwide. cbn [bind].
  unfold Np.transpose. cbn [Np.ncols]. rewrite Hd0.
  remember (d0 :: ds) as data eqn:Edata.
  do 9 (destruct buf as [|? buf]; try discriminate). clear Hrows.
  pose proof (proj1 (Forall_forall _ _) Hcols) as Hc. cbv beta in Hc.
  unfold Np.roll_left. cbn [map seq].
  rewrite (assign_last_cols_fits W (length data))
    by (rewrite ?roll_length, ?length_map; cbn [length In] in *;
        auto; apply Hc; cbn [In]; tauto).
  cbn [combine map fst snd nth bind mapM seq nth_error].
  rewrite !roll_keep by (try apply Hc; cbn [In]; tauto || lia).
  reflexivity.
Qed.

Lemma update_plot_overflows (W : nat) (env : Env) (buf : list (list float)) :
  Forall (fun v => length v = 8%nat) (data_queue env) ->
  length buf = 8%nat ->
  Forall (fun r => length r = W) buf ->
  (W < length (data_queue env))%nat ->
  (1 < length (data_queue env))%nat ->
  update_plot env buf = None.
Proof.
  intros Hwide Hrows Hcols Hn H1.
  unfold update_plot, update_plot_drain. rewrite drain_loop_eq. cbn [app].
  destruct (data_queue env) as [|d0 ds] eqn:Eq; [cbn [length] in H1; lia|].
  pose proof (proj1 (Forall_forall _ _) Hwide d0 (or_introl eq_refl)) as Hd0.
  cbv beta in Hd0.
  rewrite np_array_same_width by exact Hwide. cbn [bind].
  unfold Np.transpose. cbn [Np.ncols]. rewrite Hd0.
  remember (d0 :: ds) as data eqn:Edata.
  destruct buf as [|r buf]; [discriminate|].
  apply Forall_cons_iff in Hcols. destruct Hcols as [Hr _].
  unfold Np.roll_left. cbn [map seq].
  rewrite (assign_last_cols_overflow W (length data))
    by (rewrite ?roll_length, ?length_map; auto).
  reflexivity.
Qed.

(** X10.  With an 8-row, 1250-column plot buffer and between 1 and 1250
    eight-value vectors waiting in the deque, [update_plot] empties the
    deque and slides every row: row [j] loses its oldest entries, as
    many as there are vectors, and gains at its end the [j]-th value of
    each vector in arrival order.  The buffer keeps its shape, and the
    eight curves are given exactly its rows. *)
Theorem update_plot_slides_window (env : Env) (buf : list (list float)) :
  length buf = 8%nat ->
  Forall (fun r => length r = 1250%nat) buf ->
  data_queue env <> [] ->
  Forall (fun v => length v = 8%nat) (data_queue env) ->
  (length (data_queue env) <= 1250)%nat ->
  exists buf',
    update_plot env buf = Some (mkEnv [] (time_calls env), buf', buf') /\
    length buf' = 8%nat /\
    Forall (fun r => length r = 1250%nat) buf' /\
    forall j, (j < 8)%nat ->
              nth j buf' []
              = skipn (length (data_queue env)) (nth j buf [])
                ++ map (fun v => nth j v 0%float) (data_queue env).
Proof.
  intros Hrows Hcols Hne Hwide Hn.
  pose proof (update_plot_fits 1250 env buf Hne Hwide Hrows Hcols Hn) as Hup.
  cbv zeta in Hup.
  eexists. split; [exact Hup|]. split; [|split].
  - now rewrite length_map, length_seq.
  - apply Forall_forall. intros r Hr. apply in_map_iff in Hr.
    destruct Hr as (j & <- & Hj). apply in_seq in Hj.
    rewrite length_app, length_skipn, length_map.
    assert (Hin : In (nth j buf []) buf) by (apply nth_In; lia).
    rewrite (proj1 (Forall_forall _ _) Hcols _ Hin).
    unfold SampleVector in *. lia.
  - intros j Hj.
    do 8 (destruct j as [|j]; [reflexivity|]). lia.
Qed.

(** X11.  With an 8-row, 1250-column plot buffer and more than 1250
    eight-value vectors waiting in the deque (which holds up to 2500),
    [update_plot] raises: the slice [plot_buffer[:, -n:]] has only 1250
    columns and the [n] new columns cannot be broadcast into it. *)
Theorem update_plot_raises_beyond_width (env : Env) (buf : list (list float)) :
  length buf = 8%nat ->
  Forall (fun r => length r = 1250%nat) buf ->
  Forall (fun v => length v = 8%nat) (data_queue env) ->
  (1250 < length (data_queue env))%nat ->
  update_plot env buf = None.
Proof.
  intros Hrows Hcols Hwide Hn.
  apply (update_plot_overflows 1250); try assumption. lia.
Qed.

(** ** From the byte stream to the plot *)

Lemma frames_of_app (evs1 evs2 : list Event) :
  frames_of (evs1 ++ evs2) = frames_of evs1 ++ frames_of evs2.
Proof.
  induction evs1 as [|[b|p e] evs1 IH]; cbn [app frames_of];
    [reflexivity | exact IH | now rewrite IH].
Qed.

Lemma feed_queue (time_time : nat -> float) (chunks : list (list byte))
      (w w' : BLEWorker) (env env' : Env) (evs : list Event) :
  feed time_time chunks w env = Some (w', env', evs) ->
  data_queue env'
  = fold_left (Deque.append MAXLEN) (flat_map vectors_of (frames_of evs))
              (data_queue env) /\
  Forall (fun p => length (vectors_of p) = 2%nat /\
                   Forall (fun v => length v = 8%nat) (vectors_of p))
         (frames_of evs).
Proof.
  revert w env evs. induction chunks as [|c chunks IH]; intros w env evs H.
  - injection H as <- <- <-. split; [reflexivity | constructor].
  - cbn [feed] in H.
    destruct (notification_handler time_time c w env)
      as [[[w1 env1] evs1]|] eqn:H1; [|discriminate].
    cbn [bind] in H.
    destruct (feed time_time chunks w1 env1)
      as [[[w2 env2] evs2]|] eqn:H2; [|discriminate].
    cbn [bind] in H. injection H as <- <- <-.
    unfold notification_handler in H1.
    apply handler_loop_queue in H1. destruct H1 as [Hq1 Hall1].
    cbn [set_rx_buffer data_queue] in Hq1.
    destruct (IH _ _ _ H2) as [Hq2 Hall2].
    rewrite frames_of_app, flat_map_app, fold_left_app, <- Hq1.
    split; [exact Hq2 | apply Forall_app; split; assumption].
Qed.

(** Whole frames, however they are cut into chunks, all reach
    [process_packet], and their vectors reach the deque. *)
Lemma feed_whole_frames (time_time : nat -> float)
      (chunks frames : list (list byte)) (w : BLEWorker) (env : Env) :
  rx_buffer w = [] ->
  data_queue env = [] ->
  Forall (fun p => length p = 52%nat /\ index p 0 = Some 0xA0) frames ->
  concat chunks = concat frames ->
  exists w' env' evs,
    feed time_time chunks w env = Some (w', env', evs) /\
    frames_of evs = frames /\
    length (flat_map vectors_of frames) = (2 * length frames)%nat /\
    Forall (fun v => length v = 8%nat) (flat_map vectors_of frames) /\
    data_queue env'
    = skipn (length (flat_map vectors_of frames) - MAXLEN)
            (flat_map vectors_of frames).
Proof.
  intros Hempty Hq Hall Hcat.
  destruct (feed_sync time_time chunks w env)
    as (w' & env' & evs & Hrun & Hsl & _);
    [rewrite Hempty; cbn [length]; lia|].
  rewrite Hempty, Hcat in Hsl. cbn [app] in Hsl. unfold sync in Hsl.
  rewrite <- (app_nil_r (concat frames)) in Hsl.
  rewrite (scan_frames frames []) in Hsl
    by (assumption || (cbn [length]; lia) || apply Nat.le_refl).
  cbn [fst] in Hsl.
  assert (Hfr : frames_of evs = frames)
    by (rewrite frames_of_slides, Hsl; apply cuts_of_Cut).
  destruct (feed_queue time_time chunks w w' env env' evs Hrun)
    as [Hq' Hv].
  rewrite Hfr in Hq', Hv.
  destruct (flat_map_pairs frames Hv) as [Hlen H8].
  exists w', env', evs. repeat split; try assumption.
  rewrite Hq', Hq, deque_append_all
    by (unfold MAXLEN; cbn [length]; lia).
  reflexivity.
Qed.

(** X12.  When 626 or more whole frames arrive, in whatever chunks,
    between two runs of [update_plot] (deque empty, accumulator empty at
    the start), every frame is processed and the deque then holds more
    than 1250 vectors, so that the next [update_plot] on the 8 x 1250
    plot buffer raises. *)
Theorem burst_overflows_plot (time_time : nat -> float)
        (chunks frames : list (list byte)) (w : BLEWorker) (env : Env)
        (plot : list (list float)) :
  rx_buffer w = [] ->
  data_queue env = [] ->
  Forall (fun p => length p = 52%nat /\ index p 0 = Some 0xA0) frames ->
  concat chunks = concat frames ->
  (626 <= length frames)%nat ->
  length plot = 8%nat ->
  Forall (fun r => length r = 1250%nat) plot ->
  exists w' env' evs,
    feed time_time chunks w env = Some (w', env', evs) /\
    frames_of evs = frames /\
    (1250 < length (data_queue env') <= 2500)%nat /\
    update_plot env' plot = None.
Proof.
  intros Hempty Hq Hall Hcat Hmany Hrows Hcols.
  destruct (feed_whole_frames time_time chunks frames w env
              Hempty Hq Hall Hcat)
    as (w' & env' & evs & Hrun & Hfr & Hlen & H8 & Hq').
  exists w', env', evs. split; [exact Hrun|]. split; [exact Hfr|].
  assert (Hsize : (1250 < length (data_queue env') <= 2500)%nat).
  { rewrite Hq', length_skipn, Hlen. unfold MAXLEN. lia. }
  split; [exact Hsize|].
  apply (update_plot_overflows 1250); try assumption; try lia.
  rewrite Hq'. apply Forall_skipn_suffix. exact H8.
Qed.

(** X13.  When between 1 and 625 whole frames arrive, in whatever
    chunks, between two runs of [update_plot] (deque empty, accumulator
    empty at the start), the next [update_plot] shows all of them: row
    [j] of the plot buffer drops its two oldest entries per frame and
    ends with channel [j] of sub-frame A and of sub-frame B of each
    frame, in order of arrival; the deque is empty again. *)
Theorem frames_reach_plot (time_time : nat -> float)
        (chunks frames : list (list byte)) (w : BLEWorker) (env : Env)
        (plot : list (list float)) :
  rx_buffer w = [] ->
  data_queue env = [] ->
  Forall (fun p => length p = 52%nat /\ index p 0 = Some 0xA0) frames ->
  concat chunks = concat frames ->
  (1 <= length frames <= 625)%nat ->
  length plot = 8%nat ->
  Forall (fun r => length r = 1250%nat) plot ->
  exists w' env' evs plot',
    feed time_time chunks w env = Some (w', env', evs) /\
    update_plot env' plot = Some (mkEnv [] (time_calls env'), plot', plot') /\
    forall j, (j < 8)%nat ->
              nth j plot' []
              = skipn (2 * length frames) (nth j plot [])
                ++ map (fun v => nth j v 0%float)
                       (flat_map vectors_of frames).
Proof.
  intros Hempty Hq Hall Hcat Hmany Hrows Hcols.
  destruct (feed_whole_frames time_time chunks frames w env
              Hempty Hq Hall Hcat)
    as (w' & env' & evs & Hrun & Hfr & Hlen & H8 & Hq').
  assert (Hq'' : data_queue env' = flat_map vectors_of frames).
  { rewrite Hq'. replace (_ - MAXLEN)%nat with 0%nat; [reflexivity|].
    rewrite Hlen. unfold MAXLEN. lia. }
  assert (Hne : data_queue env' <> []).
  { intros E. rewrite Hq'' in E. rewrite E in Hlen. cbn [length] in Hlen. lia. }
  assert (Hwide : Forall (fun v => length v = 8%nat) (data_queue env'))
    by (rewrite Hq''; exact H8).
  assert (Hn : (length (data_queue env') <= 1250)%nat)
    by (rewrite Hq'', Hlen; lia).
  pose proof (update_plot_fits 1250 env' plot Hne Hwide Hrows Hcols Hn) as Hup.
  cbv zeta in Hup. rewrite Hq'', Hlen in Hup.
  exists w', env', evs. eexists. split; [exact Hrun|]. split; [exact Hup|].
  intros j Hj. do 8 (destruct j as [|j]; [reflexivity|]). lia.
Qed.

(** ** Statistics: the first emission and the start command *)

Lemma float_zero_div (e : float) :
  (0 <? e)%float = true -> (0 / e)%float = 0%float.
Proof.
  intros H. apply Prim2SF_inj.
  rewrite FloatAxioms.div_spec. rewrite FloatAxioms.ltb_spec in H.
  change (Prim2SF 0) with (S754_zero false) in *.
  destruct (Prim2SF e) as [sg|sg| |sg m x]; try destruct sg;
    try discriminate H; reflexivity.
Qed.

(** X14.  Whatever the clock reads, the first packet a fresh worker
    processes makes it call [stats_cb] with a loss of exactly 0 and a
    rate of exactly 0; it is then that [start_t] is set, from the first
    of the two clock readings the call takes. *)
Theorem first_emission_is_zero (time_time : nat -> float) (env : Env)
        (p : list byte) :
  length p = 52%nat ->
  exists w1 env1,
    process_packet time_time p BLEWorker_init env
    = Some (w1, env1, Some (0%float, 0%float)) /\
    start_t w1 = time_time (time_calls env) /\
    time_calls env1 = S (S (time_calls env)).
Proof.
  intros Hlen.
  destruct (process_packet_total time_time p BLEWorker_init env Hlen)
    as (s & fA & fB & w1 & t1 & e & Hs & Hr & Hd & Ht & Hpp).
  rewrite track_seq_first in Ht by reflexivity.
  unfold stats_tick, loss_pct in Ht.
  cbn [received expected start_t rx_buffer last_seq BLEWorker_init bind] in Ht.
  change (0 mod 50 =? 0) with true in Ht.
  change (0 <? 0) with false in Ht.
  change (0 =? 0)%float with true in Ht.
  cbn [bind start_t received] in Ht.
  change (float_of_int (0 * 2)) with 0%float in Ht.
  set (elapsed := (time_time (S (time_calls env))
                   - time_time (time_calls env))%float) in *.
  destruct (0 <? elapsed)%float eqn:Hel.
  - unfold float_truediv in Ht.
    rewrite (float_pos_nonzero _ Hel), (float_zero_div _ Hel) in Ht.
    cbn [bind] in Ht. injection Ht as <- <- <-.
    rewrite Hpp. do 2 eexists. repeat split.
  - cbn [bind] in Ht. injection Ht as <- <- <-.
    rewrite Hpp. do 2 eexists. repeat split.
Qed.

(** X15.  After the command "b" reaches a worker that has already seen
    a packet, the packets that follow are all counted from zero, and
    [stats_cb] is called after exactly the 50th, 100th, ... of them and
    at no other packet; [expected] and [last_seq] carry over from
    before the command. *)
Theorem start_command_restarts_schedule (time_time : nat -> float)
        (w : BLEWorker) (env : Env) (packets : list (list byte)) :
  0 <= last_seq w < 256 ->
  Forall (fun q => length q = 52%nat) packets ->
  exists wb envb w' env' outs,
    send_cmd time_time "b" (Some w) env = (Some wb, envb) /\
    last_seq wb = last_seq w /\ expected wb = expected w /\
    received wb = 0 /\
    observe_all time_time packets wb envb = Some (w', env', outs) /\
    received w' = Z.of_nat (length packets) /\
    length outs = length packets /\
    forall i, (i < length packets)%nat ->
              (nth i outs None <> None <-> (Z.of_nat i + 1) mod 50 = 0).
Proof.
  intros Hw Hall.
  set (wb := mkBLEWorker (rx_buffer w) (last_seq w) (expected w) 0
                         (time_time (time_calls env))).
  set (envb := mkEnv (data_queue env) (S (time_calls env))).
  destruct (observe_all_tracked time_time packets wb envb Hall Hw)
    as (w' & env' & outs & Hrun & _ & Hrc & Hlen & Hnth).
  exists wb, envb, w', env', outs.
  split; [reflexivity|]. repeat split; try assumption.
  - intros Hi. apply (Hnth i) in Hi; [|assumption].
    now replace (Z.of_nat i + 1) with (received wb + 1 + Z.of_nat i)
      by (cbn [received wb]; lia).
  - intros Hi. apply (Hnth i); [assumption|].
    now replace (received wb + 1 + Z.of_nat i) with (Z.of_nat i + 1)
      by (cbn [received wb]; lia).
Qed.

(** ** The handler and the tracker *)

Section HandlerTracker.
Variable time_time : nat -> float.

Lemma set_rx_buffer_twice (a b : list byte) (w : BLEWorker) :
  set_rx_buffer a (set_rx_buffer b w) = set_rx_buffer a w.
Proof. reflexivity. Qed.

Lemma observe_all_set_rx_buffer (ps : list (list byte)) (b : list byte)
      (w : BLEWorker) (env : Env) :
  observe_all time_time ps (set_rx_buffer b w) env =
  match observe_all time_time ps w env with
  | Some (w1, env1, outs) => Some (set_rx_buffer b w1, env1, outs)
  | None => None
  end.
Proof.
  revert w env. induction ps as [|p ps IH]; intros w env; [reflexivity|].
  cbn [observe_all]. rewrite process_packet_set_rx_buffer.
  destruct (process_packet time_time p w env) as [[[w1 env1] e]|];
    [|reflexivity].
  cbn [bind]. rewrite IH.
  destruct (observe_all time_time ps w1 env1) as [[[w2 env2] outs]|];
    reflexivity.
Qed.

Lemma observe_all_rx_buffer (ps : list (list byte)) (w w1 : BLEWorker)
      (env env1 : Env) (outs : list (option Stats)) :
  observe_all time_time ps w env = Some (w1, env1, outs) ->
  rx_buffer w1 = rx_buffer w.
Proof.
  revert w w1 env env1 outs.
  induction ps as [|p ps IH]; intros w w1 env env1 outs H.
  - injection H as <- _ _. reflexivity.
  - cbn [observe_all] in H.
    destruct (process_packet time_time p w env) as [[[wa enva] e]|] eqn:Hpp;
      [|discriminate].
    cbn [bind] in H.
    destruct (observe_all time_time ps wa enva) as [[[wb envb] o]|] eqn:Ho;
      [|discriminate].
    cbn [bind] in H. injection H as <- _ _.
    rewrite (IH _ _ _ _ _ Ho).
    exact (process_packet_rx_buffer time_time p w wa env enva e Hpp).
Qed.

(** The loop does to the tracker, the deque and the clock what
    [process_packet] does when given the cut packets one after the
    other. *)
Lemma handler_loop_observes (fuel : nat) (w w' : BLEWorker) (env env' : Env)
      (evs : list Event) :
  handler_loop time_time fuel w env = Some (w', env', evs) ->
  exists w1,
    observe_all time_time (frames_of evs) w env
    = Some (w1, env', emitted_of evs) /\
    w' = set_rx_buffer (rx_buffer w') w1.
Proof.
  revert w env evs. induction fuel as [|fuel IH]; intros w env evs H.
  - injection H as <- <- <-. exists w. split; [reflexivity|].
    symmetry. apply set_rx_buffer_id.
  - cbn [handler_loop] in H.
    remember (firstn 52 (rx_buffer w)) as pkt eqn:Epkt.
    remember (skipn 52 (rx_buffer w)) as rest52 eqn:Erest52.
    remember (skipn 1 (rx_buffer w)) as rest1 eqn:Erest1.
    destruct (52 <=? length (rx_buffer w))%nat.
    2:{ injection H as <- <- <-. exists w. split; [reflexivity|].
        symmetry. apply set_rx_buffer_id. }
    destruct (nth_error (rx_buffer w) 0) as [b0|]; [|discriminate].
    cbn [bind] in H.
    destruct (negb (byte_val b0 =? 0xA0)).
    + destruct (handler_loop time_time fuel (set_rx_buffer rest1 w) env)
        as [[[wa enva] evsa]|] eqn:Hrun; [|discriminate].
      cbn [bind] in H. injection H as <- <- <-.
      destruct (IH _ _ _ Hrun) as (w1 & Hobs & Hw).
      rewrite observe_all_set_rx_buffer in Hobs.
      cbn [frames_of emitted_of].
      destruct (observe_all time_time (frames_of evsa) w env)
        as [[[w1' env1'] outs']|]; [|discriminate].
      injection Hobs as <- <- <-.
      exists w1'. split; [reflexivity|].
      rewrite Hw at 1. apply set_rx_buffer_twice.
    + rewrite process_packet_set_rx_buffer in H.
      destruct (process_packet time_time pkt w env)
        as [[[wb envb] e]|] eqn:Hpp; [|discriminate].
      cbn [bind] in H.
      destruct (handler_loop time_time fuel (set_rx_buffer rest52 wb) envb)
        as [[[wa enva] evsa]|] eqn:Hrun; [|discriminate].
      cbn [bind] in H. injection H as <- <- <-.
      destruct (IH _ _ _ Hrun) as (w1 & Hobs & Hw).
      rewrite observe_all_set_rx_buffer in Hobs.
      cbn [frames_of emitted_of observe_all]. rewrite Hpp. cbn [bind].
      destruct (observe_all time_time (frames_of evsa) wb envb)
        as [[[w1' env1'] outs']|]; [|discriminate].
      injection Hobs as <- <- <-. cbn [bind].
      exists w1'. split; [reflexivity|].
      rewrite Hw at 1. apply set_rx_buffer_twice.
Qed.

End HandlerTracker.

(** X16.  A notification does to the sequence tracker, the statistics,
    the deque and the clock exactly what [process_packet] does when it is
    given, one after the other, the packets the handler cut; only the
    accumulator differs.  So whatever holds of a run of [process_packet]
    holds of the packets of a notification. *)
Theorem handler_runs_process_packet (time_time : nat -> float)
        (data : list byte) (w : BLEWorker) (env : Env) :
  exists w' env' evs w1,
    notification_handler time_time data w env = Some (w', env', evs) /\
    observe_all time_time (frames_of evs) w env
    = Some (w1, env', emitted_of evs) /\
    last_seq w' = last_seq w1 /\ expected w' = expected w1 /\
    received w' = received w1 /\ start_t w' = start_t w1 /\
    rx_buffer w1 = rx_buffer w.
Proof.
  destruct (notification_handler_sync time_time data w env)
    as (w' & env' & evs & Hrun & _ & _).
  pose proof Hrun as Hrun'. unfold notification_handler in Hrun'.
  apply handler_loop_observes in Hrun'.
  destruct Hrun' as (w1 & Hobs & Hw).
  rewrite observe_all_set_rx_buffer in Hobs.
  destruct (observe_all time_time (frames_of evs) w env)
    as [[[w1' env1'] outs']|] eqn:Hobs'; [|discriminate].
  injection Hobs as E1 E2 E3. subst w1 env1' outs'.
  exists w', env', evs, w1'. split; [exact Hrun|]. split; [exact Hobs'|].
  rewrite Hw. cbn [set_rx_buffer last_seq expected received start_t].
  repeat split.
  exact (observe_all_rx_buffer time_time _ _ _ _ _ _ Hobs').
Qed.

(** ** [process_packet] on a packet of any length *)

Lemma mapM_fails {A B : Type} (f : A -> option B) (l : list A) (a : A) :
  In a l -> f a = None -> mapM f l = None.
Proof.
  induction l as [|x l IH]; intros Hin Hf; [contradiction|].
  cbn [mapM]. destruct Hin as [->|Hin].
  - rewrite Hf. reflexivity.
  - destruct (f x); [|reflexivity]. cbn [bind]. now rewrite IH.
Qed.

Lemma decode_frames_needs_50 (data : list byte) :
  (length data < 50)%nat -> decode_frames data = None.
Proof.
  intros Hlen. unfold decode_frames.
  apply (mapM_fails _ _ 26%nat); [right; now left|].
  unfold decode_frame. apply (mapM_fails _ _ 7%nat).
  - apply in_seq. lia.
  - unfold decode_channel, index.
    assert (E : nth_error data (26 + 7 * 3 + 2) = None)
      by (apply nth_error_None; cbn [Nat.add Nat.mul]; lia).
    rewrite E.
    destruct (nth_error data (26 + 7 * 3)); [|reflexivity].
    destruct (nth_error data (26 + 7 * 3 + 1)); reflexivity.
Qed.

Lemma decode_frames_from_50 (data : list byte) :
  (50 <= length data)%nat ->
  exists fA fB, decode_frames data = Some [fA; fB].
Proof.
  intros Hlen. unfold decode_frames.
  assert (Hf : forall o, In o [2%nat; 26%nat] ->
                         exists f, decode_frame data o = Some f).
  { intros o Ho. unfold decode_frame.
    destruct (mapM_total (fun i => decode_channel data (o + i * 3)) (seq 0 8))
      as [bs [Hbs _]]; [|exists bs; exact Hbs].
    intros i Hi. apply in_seq in Hi. apply decode_channel_total.
    destruct Ho as [<-|[<-|[]]]; lia. }
  destruct (Hf 2%nat) as [fA HA]; [now left|].
  destruct (Hf 26%nat) as [fB HB]; [right; now left|].
  exists fA, fB. cbn [mapM]. rewrite HA, HB. reflexivity.
Qed.

(** X17.  For a worker whose counters are below 2^51 in magnitude (so
    that no conversion of a counter to binary64 overflows or rounds),
    [process_packet] raises exactly on packets shorter than 50 bytes: it
    indexes the packet up to byte 49, so 50 bytes are enough for it to
    return whatever the clock, and with fewer the decoding of the last
    channel runs past the end. *)
Theorem process_packet_raises_iff_short (time_time : nat -> float)
        (p : list byte) (w : BLEWorker) (env : Env) :
  Z.abs (expected w) < 2 ^ 51 ->
  Z.abs (received w) < 2 ^ 51 ->
  (process_packet time_time p w env = None <-> (length p < 50)%nat).
Proof.
  intros _ _. split.
  - intros Hnone. destruct (Nat.lt_ge_cases (length p) 50) as [Hlt|Hge];
      [exact Hlt | exfalso].
    destruct (index_total p 1) as [s [Hs _]]; [lia|].
    destruct (decode_frames_from_50 p Hge) as [fA [fB Hd]].
    destruct (stats_tick_spec time_time (track_seq s w) (time_calls env))
      as (w1 & t1 & e & Ht & _).
    rewrite (process_packet_eq time_time p w env s fA fB w1 t1 e Hs Hd Ht)
      in Hnone.
    discriminate.
  - intros Hlt. unfold process_packet.
    destruct (index p 1) as [s|]; [|reflexivity]. cbn [bind].
    destruct (stats_tick time_time (track_seq s w) (time_calls env))
      as [[[w1 t1] e]|]; [|reflexivity].
    cbn [bind]. now rewrite decode_frames_needs_50.
Qed.

(** ** The further properties at concrete inputs *)

Lemma packets_with_seq_frames (l : list byte) :
  Forall (fun p => length p = 52%nat /\ index p 0 = Some 0xA0)
         (map packet_with_seq l).
Proof.
  apply Forall_forall. intros q Hq. apply in_map_iff in Hq.
  destruct Hq as [b [<- _]]. split; reflexivity.
Defined.

Lemma frames626_frames :
  Forall (fun p => length p = 52%nat /\ index p 0 = Some 0xA0) frames626.
Proof.
  apply Forall_forall. intros q Hq. apply repeat_spec in Hq. subst q.
  split; reflexivity.
Defined.

Lemma plot_buffer_init_cols :
  Forall (fun r => length r = 1250%nat) plot_buffer_init.
Proof.
  apply Forall_forall. intros r Hr. apply repeat_spec in Hr. subst r.
  apply repeat_length.
Defined.

Lemma aligned_frames_all_processed_witness :
  rx_buffer (set_rx_buffer (firstn 10 (packet_with_seq x05)) BLEWorker_init)
  ++ (skipn 10 (packet_with_seq x05) ++ packet_with_seq x06 ++ [xa0; x07])
  = concat (map packet_with_seq [x05; x06]) ++ [xa0; x07] /\
  Forall (fun p => length p = 52%nat /\ index p 0 = Some 0xA0)
         (map packet_with_seq [x05; x06]) /\
  (length [xa0; x07] < 52)%nat /\
  exists w' env' evs,
    notification_handler clock0
      (skipn 10 (packet_with_seq x05) ++ packet_with_seq x06 ++ [xa0; x07])
      (set_rx_buffer (firstn 10 (packet_with_seq x05)) BLEWorker_init) env0
    = Some (w', env', evs) /\
    frames_of evs = map packet_with_seq [x05; x06] /\
    length evs = length (map packet_with_seq [x05; x06]) /\
    rx_buffer w' = [xa0; x07].
Proof.
  assert (H : (length [xa0; x07] < 52)%nat) by (cbn [length]; lia).
  split; [reflexivity|]. split; [apply packets_with_seq_frames|].
  split; [exact H|].
  exact (aligned_frames_all_processed clock0 (map packet_with_seq [x05; x06])
           (skipn 10 (packet_with_seq x05) ++ packet_with_seq x06 ++ [xa0; x07])
           [xa0; x07]
           (set_rx_buffer (firstn 10 (packet_with_seq x05)) BLEWorker_init)
           env0 eq_refl (packets_with_seq_frames [x05; x06]) H).
Defined.

Lemma gaps_are_counted_witness :
  Forall (fun q => length q = 52%nat) (map packet_with_seq [xfe; xff; x01]) /\
  mapM (fun p => index p 1) (map packet_with_seq [xfe; xff; x01])
  = Some (seqs_from 254 [1; 2]) /\
  Forall (fun g => 0 <= g < 256) [1; 2] /\
  exists w' env' outs,
    observe_all clock0 (map packet_with_seq [xfe; xff; x01])
                BLEWorker_init env0 = Some (w', env', outs) /\
    expected w' = fold_right Z.add 0 [1; 2] /\
    received w' = Z.of_nat (length [1; 2]) /\
    (Forall (fun g => g = 1) [1; 2] -> expected w' = received w').
Proof.
  assert (Hg : Forall (fun g => 0 <= g < 256) [1; 2])
    by (repeat (apply Forall_cons; [lia|]); apply Forall_nil).
  split; [apply packets_with_seq_length|]. split; [reflexivity|].
  split; [exact Hg|].
  exact (gaps_are_counted clock0 env0 (map packet_with_seq [xfe; xff; x01])
           254 [1; 2] (packets_with_seq_length _) eq_refl Hg).
Defined.

Lemma tracker_invariants_witness :
  Forall (fun q => length q = 52%nat)
         (packet_with_seq x07 :: map packet_with_seq [x09]) /\
  index (packet_with_seq x07) 1 = Some 7 /\
  exists w' env' outs,
    observe_all clock0 (packet_with_seq x07 :: map packet_with_seq [x09])
                BLEWorker_init env0 = Some (w', env', outs) /\
    received w' = Z.of_nat (length (map packet_with_seq [x09])) /\
    0 <= expected w' <= 255 * received w' /\
    expected w' mod 256 = (last_seq w' - 7) mod 256.
Proof.
  split; [exact (packets_with_seq_length [x07; x09])|].
  split; [reflexivity|].
  exact (tracker_invariants clock0 env0 (packet_with_seq x07)
           (map packet_with_seq [x09]) 7
           (packets_with_seq_length [x07; x09]) eq_refl).
Defined.

Lemma decode_channel_twos_complement_witness :
  decode_channel (build_frame x05 codes16 x00 x00) 2
  = Some (decoded 0x800000) /\
  exists b0 b1 b2 val,
    nth_error (build_frame x05 codes16 x00 x00) 2 = Some b0 /\
    nth_error (build_frame x05 codes16 x00 x00) (2 + 1) = Some b1 /\
    nth_error (build_frame x05 codes16 x00 x00) (2 + 2) = Some b2 /\
    - 2 ^ 23 <= val < 2 ^ 23 /\
    val mod 2 ^ 24 = byte_val b0 * 65536 + byte_val b1 * 256 + byte_val b2 /\
    decoded 0x800000 = (float_of_int val * SCALE_FACTOR)%float.
Proof.
  assert (H : decode_channel (build_frame x05 codes16 x00 x00) 2
              = Some (decoded 0x800000)) by (vm_compute; reflexivity).
  split; [exact H|].
  exact (decode_channel_twos_complement _ 2 _ H).
Defined.

Lemma process_packet_reads_bytes_1_to_49_witness :
  (forall i, (1 <= i < 50)%nat ->
             nth_error (packet_with_seq x05) i = nth_error packet_other_ends i) /\
  process_packet clock0 (packet_with_seq x05) BLEWorker_init env0
  = process_packet clock0 packet_other_ends BLEWorker_init env0.
Proof.
  assert (H : forall i, (1 <= i < 50)%nat ->
                        nth_error (packet_with_seq x05) i
                        = nth_error packet_other_ends i).
  { intros i Hi. do 50 (destruct i as [|i]; [try reflexivity; lia|]). lia. }
  split; [exact H|].
  exact (process_packet_reads_bytes_1_to_49 clock0 (packet_with_seq x05)
           packet_other_ends BLEWorker_init env0 H).
Defined.

Lemma handler_queues_decoded_vectors_witness :
  (length (data_queue env0) <= MAXLEN)%nat /\
  exists w' env' evs,
    notification_handler clock0 (packet_with_seq x05) BLEWorker_init env0
    = Some (w', env', evs) /\
    length (flat_map vectors_of (frames_of evs))
    = (2 * length (frames_of evs))%nat /\
    data_queue env'
    = skipn (length (data_queue env0 ++ flat_map vectors_of (frames_of evs))
             - MAXLEN)
            (data_queue env0 ++ flat_map vectors_of (frames_of evs)) /\
    (length (data_queue env') <= MAXLEN)%nat /\
    (Forall (fun v => length v = 8%nat) (data_queue env0) ->
     Forall (fun v => length v = 8%nat) (data_queue env')).
Proof.
  assert (H : (length (data_queue env0) <= MAXLEN)%nat)
    by (cbn [env0 data_queue length]; lia).
  split; [exact H|].
  exact (handler_queues_decoded_vectors clock0 (packet_with_seq x05)
           BLEWorker_init env0 H).
Defined.

Lemma update_plot_slides_window_witness :
  length plot_buffer_init = 8%nat /\
  Forall (fun r => length r = 1250%nat) plot_buffer_init /\
  data_queue (mkEnv [repeat 1%float 8; repeat 2%float 8] 0) <> [] /\
  Forall (fun v => length v = 8%nat)
         (data_queue (mkEnv [repeat 1%float 8; repeat 2%float 8] 0)) /\
  (length (data_queue (mkEnv [repeat 1%float 8; repeat 2%float 8] 0))
   <= 1250)%nat /\
  exists buf',
    update_plot (mkEnv [repeat 1%float 8; repeat 2%float 8] 0)
                plot_buffer_init
    = Some (mkEnv [] 0, buf', buf') /\
    length buf' = 8%nat /\
    Forall (fun r => length r = 1250%nat) buf' /\
    forall j, (j < 8)%nat ->
              nth j buf' []
              = skipn 2 (nth j plot_buffer_init [])
                ++ map (fun v => nth j v 0%float)
                       [repeat 1%float 8; repeat 2%float 8].
Proof.
  assert (H1 : data_queue (mkEnv [repeat 1%float 8; repeat 2%float 8] 0) <> [])
    by discriminate.
  assert (H2 : Forall (fun v => length v = 8%nat)
                      (data_queue (mkEnv [repeat 1%float 8; repeat 2%float 8] 0)))
    by (repeat (apply Forall_cons; [reflexivity|]); apply Forall_nil).
  assert (H3 : (length (data_queue
                          (mkEnv [repeat 1%float 8; repeat 2%float 8] 0))
                <= 1250)%nat) by (cbn [data_queue length]; lia).
  split; [reflexivity|]. split; [exact plot_buffer_init_cols|].
  split; [exact H1|]. split; [exact H2|]. split; [exact H3|].
  exact (update_plot_slides_window
           (mkEnv [repeat 1%float 8; repeat 2%float 8] 0) plot_buffer_init
           eq_refl plot_buffer_init_cols H1 H2 H3).
Defined.

Lemma update_plot_raises_beyond_width_witness :
  length plot_buffer_init = 8%nat /\
  Forall (fun r => length r = 1250%nat) plot_buffer_init /\
  Forall (fun v => length v = 8%nat)
         (data_queue (mkEnv (repeat (repeat 0%float 8) 1251) 0)) /\
  (1250 < length (data_queue (mkEnv (repeat (repeat 0%float 8) 1251) 0)))%nat /\
  update_plot (mkEnv (repeat (repeat 0%float 8) 1251) 0) plot_buffer_init
  = None.
Proof.
  assert (H2 : Forall (fun v => length v = 8%nat)
                      (data_queue (mkEnv (repeat (repeat 0%float 8) 1251) 0))).
  { apply Forall_forall. intros v Hv. apply repeat_spec in Hv. subst v.
    reflexivity. }
  assert (H3 : (1250 < length (data_queue
                                 (mkEnv (repeat (repeat 0%float 8) 1251) 0)))%nat)
    by (cbn [data_queue]; rewrite repeat_length; lia).
  split; [reflexivity|]. split; [exact plot_buffer_init_cols|].
  split; [exact H2|]. split; [exact H3|].
  exact (update_plot_raises_beyond_width
           (mkEnv (repeat (repeat 0%float 8) 1251) 0) plot_buffer_init
           eq_refl plot_buffer_init_cols H2 H3).
Defined.

Lemma burst_overflows_plot_witness :
  rx_buffer BLEWorker_init = [] /\
  data_queue env0 = [] /\
  Forall (fun p => length p = 52%nat /\ index p 0 = Some 0xA0) frames626 /\
  concat [concat frames626] = concat frames626 /\
  (626 <= length frames626)%nat /\
  length plot_buffer_init = 8%nat /\
  Forall (fun r => length r = 1250%nat) plot_buffer_init /\
  exists w' env' evs,
    feed clock0 [concat frames626] BLEWorker_init env0
    = Some (w', env', evs) /\
    frames_of evs = frames626 /\
    (1250 < length (data_queue env') <= 2500)%nat /\
    update_plot env' plot_buffer_init = None.
Proof.
  assert (H4 : concat [concat frames626] = concat frames626)
    by (cbn [concat]; apply app_nil_r).
  assert (H5 : (626 <= length frames626)%nat)
    by (unfold frames626; rewrite repeat_length; lia).
  split; [reflexivity|]. split; [reflexivity|].
  split; [exact frames626_frames|]. split; [exact H4|]. split; [exact H5|].
  split; [reflexivity|]. split; [exact plot_buffer_init_cols|].
  exact (burst_overflows_plot clock0 [concat frames626] frames626
           BLEWorker_init env0 plot_buffer_init eq_refl eq_refl
           frames626_frames H4 H5 eq_refl plot_buffer_init_cols).
Defined.

Lemma frames_reach_plot_witness :
  rx_buffer BLEWorker_init = [] /\
  data_queue env0 = [] /\
  Forall (fun p => length p = 52%nat /\ index p 0 = Some 0xA0)
         (map packet_with_seq [x05; x06]) /\
  concat two_frames_chunks = concat (map packet_with_seq [x05; x06]) /\
  (1 <= length (map packet_with_seq [x05; x06]) <= 625)%nat /\
  length plot_buffer_init = 8%nat /\
  Forall (fun r => length r = 1250%nat) plot_buffer_init /\
  exists w' env' evs plot',
    feed clock0 two_frames_chunks BLEWorker_init env0
    = Some (w', env', evs) /\
    update_plot env' plot_buffer_init
    = Some (mkEnv [] (time_calls env'), plot', plot') /\
    forall j, (j < 8)%nat ->
              nth j plot' []
              = skipn (2 * length (map packet_with_seq [x05; x06]))
                      (nth j plot_buffer_init [])
                ++ map (fun v => nth j v 0%float)
                       (flat_map vectors_of (map packet_with_seq [x05; x06])).
Proof.
  assert (H5 : (1 <= length (map packet_with_seq [x05; x06]) <= 625)%nat)
    by (cbn [map length]; lia).
  split; [reflexivity|]. split; [reflexivity|].
  split; [apply packets_with_seq_frames|]. split; [reflexivity|].
  split; [exact H5|]. split; [reflexivity|].
  split; [exact plot_buffer_init_cols|].
  exact (frames_reach_plot clock0 two_frames_chunks
           (map packet_with_seq [x05; x06]) BLEWorker_init env0
           plot_buffer_init eq_refl eq_refl
           (packets_with_seq_frames [x05; x06]) eq_refl H5 eq_refl
           plot_buffer_init_cols).
Defined.

Lemma first_emission_is_zero_witness :
  length (packet_with_seq x07) = 52%nat /\
  exists w1 env1,
    process_packet clock0 (packet_with_seq x07) BLEWorker_init env0
    = Some (w1, env1, Some (0%float, 0%float)) /\
    start_t w1 = clock0 (time_calls env0) /\
    time_calls env1 = S (S (time_calls env0)).
Proof.
  split; [reflexivity|].
  exact (first_emission_is_zero clock0 env0 (packet_with_seq x07) eq_refl).
Defined.

Lemma start_command_restarts_schedule_witness :
  0 <= last_seq (mkBLEWorker [] 231 1000 1000 (clock0 0)) < 256 /\
  Forall (fun q => length q = 52%nat) (map packet_with_seq [xe8; xe9]) /\
  exists wb envb w' env' outs,
    send_cmd clock0 "b" (Some (mkBLEWorker [] 231 1000 1000 (clock0 0)))
             (mkEnv [] 2) = (Some wb, envb) /\
    last_seq wb = 231 /\ expected wb = 1000 /\ received wb = 0 /\
    observe_all clock0 (map packet_with_seq [xe8; xe9]) wb envb
    = Some (w', env', outs) /\
    received w' = Z.of_nat (length (map packet_with_seq [xe8; xe9])) /\
    length outs = length (map packet_with_seq [xe8; xe9]) /\
    forall i, (i < length (map packet_with_seq [xe8; xe9]))%nat ->
              (nth i outs None <> None <-> (Z.of_nat i + 1) mod 50 = 0).
Proof.
  assert (H : 0 <= last_seq (mkBLEWorker [] 231 1000 1000 (clock0 0)) < 256)
    by (cbn [last_seq]; lia).
  split; [exact H|]. split; [apply packets_with_seq_length|].
  exact (start_command_restarts_schedule clock0
           (mkBLEWorker [] 231 1000 1000 (clock0 0)) (mkEnv [] 2)
           (map packet_with_seq [xe8; xe9]) H (packets_with_seq_length _)).
Defined.

Lemma process_packet_raises_iff_short_witness :
  Z.abs (expected BLEWorker_init) < 2 ^ 51 /\
  Z.abs (received BLEWorker_init) < 2 ^ 51 /\
  (process_packet clock0 (firstn 49 (packet_with_seq x05)) BLEWorker_init env0
   = None
   <-> (length (firstn 49 (packet_with_seq x05)) < 50)%nat).
Proof.
  assert (He : Z.abs (expected BLEWorker_init) < 2 ^ 51) by reflexivity.
  assert (Hr : Z.abs (received BLEWorker_init) < 2 ^ 51) by reflexivity.
  split; [exact He|]. split; [exact Hr|].
  exact (process_packet_raises_iff_short clock0
           (firstn 49 (packet_with_seq x05)) BLEWorker_init env0 He Hr).
Defined.
